(** * servicediscovery: the Consul DNS resolver of [discovery.go]

    A shallow embedding of package [servicediscovery]
    (src/servicediscovery/discovery.go): the two-stage SRV / A resolution
    and its target address cache, followed by the properties of the
    specification that concern them.

    Conventions of the embedding.
    - A Go [string] is a [string] (a sequence of bytes); [len] is
      [String.length] read as a [Z], so that [len(s)-1] can be negative.
    - A Go slice is a [list]; the [nil] slice is the empty list.
    - [net.IP] is a byte slice, [list Byte.byte].
    - [map[string]net.IP] is a [gmap string IP].
    - A Go result tuple [(v, err)] is a pair whose error is an
      [option error], [None] being [nil].
    - A method of [*consulServiceDiscovery] is a computation over a
      [Machine]: the receiver, the state of the network behind the
      [DnsClient], and a journal of what the call sent out.  A computation
      either returns or panics. *)

From Stdlib Require Import ZArith String Ascii List DecimalString DecimalPos DecimalZ.
From stdpp Require Import gmap strings list fin_maps.

Open Scope string_scope.
Open Scope Z_scope.
Open Scope list_scope.

(** ** Go runtime pieces used by the package *)

Definition len (s : string) : Z := Z.of_nat (String.length s).

(** [s[:hi]]: the run-time check of a slice expression on a string is
    [0 <= hi <= len(s)]; outside it the program panics. *)
Definition slice_to (s : string) (hi : Z) : option string :=
  if ((hi <? 0) || (len s <? hi))%Z then None
  else Some (substring 0 (Z.to_nat hi) s).

(** [fmt.Sprintf("%d", n)] *)
Definition Sprintf_d (n : Z) : string := NilZero.string_of_int (Z.to_int n).

(** Values of Go's [error] interface.  [Errorf] is an error made in this
    package by [fmt.Errorf] with a constant message; [LibError] is one
    handed over by package [net] or by the DNS client. *)
Inductive error : Type :=
  | Errorf (msg : string)
  | LibError (msg : string).

Definition IP : Type := list Byte.byte.

(** ** DNS messages (package [dns]) *)

Module dns.

Inductive RRType : Type := TypeA | TypeSRV.

Definition RRType_eqb (a b : RRType) : bool :=
  match a, b with
  | TypeA, TypeA | TypeSRV, TypeSRV => true
  | _, _ => false
  end.

Record Question : Type := SetQuestion { Name : string; Qtype : RRType }.

Record SRV : Type := mkSRV {
  Priority : Z;
  Weight : Z;
  Port : Z;          (* uint16 *)
  Target : string
}.

(** An answer record: the two kinds the package looks at by type
    assertion, and every other kind of resource record. *)
Inductive RR : Type :=
  | RR_SRV (srv : SRV)
  | RR_A (A : IP)
  | RR_other.

Record Msg : Type := mkMsg { Rcode : Z; Answer : list RR }.

Definition RcodeSuccess : Z := 0.

End dns.

(** ** The package's own types *)

Record consulServiceDiscovery : Type := mkConsul {
  dnsServer : string;
  dnsSearch : string;
  targetCache : gmap string IP
}.

Record ServiceInstance : Type := mkInstance { Ip : string; Port : string }.

(** What a call sends out: a DNS exchange, a host lookup, a log line of
    level error. *)
Inductive Event : Type :=
  | EvExchange (q : dns.Question) (server : string)
  | EvLookupHost (host : string)
  | EvLogError (msg : string).

(** The number of exchanges of record type [t] in a journal. *)
Definition isQuery (t : dns.RRType) (ev : Event) : bool :=
  match ev with
  | EvExchange q _ => dns.RRType_eqb (dns.Qtype q) t
  | _ => false
  end.

Fixpoint queries (t : dns.RRType) (j : list Event) : nat :=
  match j with
  | [] => 0%nat
  | ev :: j' => ((if isQuery t ev then 1 else 0) + queries t j')%nat
  end.

Definition isExchange (ev : Event) : bool :=
  match ev with EvExchange _ _ => true | _ => false end.

Fixpoint exchanges (j : list Event) : list Event :=
  match j with
  | [] => []
  | ev :: j' => if isExchange ev then ev :: exchanges j' else exchanges j'
  end.

Fixpoint lookups (j : list Event) : list string :=
  match j with
  | [] => []
  | EvLookupHost h :: j' => h :: lookups j'
  | _ :: j' => lookups j'
  end.

(** The SRV records of an answer, in the order of the answer. *)
Fixpoint srvRecords (answer : list dns.RR) : list dns.SRV :=
  match answer with
  | [] => []
  | dns.RR_SRV srv :: rest => srv :: srvRecords rest
  | _ :: rest => srvRecords rest
  end.

(** The error values of the package, named after the kinds of the
    specification. *)
Definition QueryFailedError : error :=
  Errorf "Service lookup: DNS query did not succeed".
Definition TargetQueryFailedError : error :=
  Errorf "Service lookup: Target DNS query did not succeed".
Definition NoRecordError : error :=
  Errorf "Service lookup: No A entry in DNS response".
Definition NoInstanceError : error :=
  Errorf "Service lookup: No SRV entry in DNS response".
Definition NoHostError : error :=
  Errorf "No service discovery host could be resolved".

(** ** Collaborators

    [DnsClient] is the interface of the field [client].  Its contract is
    the one of [dns.Client]: a nil error comes with a message, and when the
    error is not nil the package does not look at the message; so an
    exchange gives a message or an error (the round-trip time is dropped,
    the package ignores it, and so is the random id of the query).  The
    exchange may depend on and change the state [World] of the network.  [NetLib] gathers the
    functions of packages [net] and [dns] the code calls. *)

Class DnsClient (World : Type) : Type := {
  Exchange : dns.Question -> string -> World -> (dns.Msg + error) * World
}.

Class NetLib (World : Type) : Type := {
  Fqdn : string -> string;
  IP_String : IP -> string;
  SplitHostPort : string -> (string * string) + error;
  ParseIP : string -> option IP;
  LookupHost : string -> World -> (list string * option error) * World;
  JoinHostPort : string -> string -> string
}.

Section Resolver.

Context {World : Type} `{!DnsClient World} `{!NetLib World}.

Record Env : Type := mkEnv { net : World; journal : list Event }.

Record Machine : Type := mkMachine { self : consulServiceDiscovery; env : Env }.

(** *** Computations *)

Inductive outcome (A : Type) : Type :=
  | Ret (a : A) (m : Machine)
  | Panic (msg : string) (m : Machine).
Arguments Ret {A} a m.
Arguments Panic {A} msg m.

Definition M (A : Type) : Type := Machine -> outcome A.

Definition ret {A} (a : A) : M A := fun m => Ret a m.

Definition bind {A B} (c : M A) (k : A -> M B) : M B :=
  fun m => match c m with
           | Ret a m' => k a m'
           | Panic msg m' => Panic msg m'
           end.

Definition panic {A} (msg : string) : M A := fun m => Panic msg m.

Definition state_of {A} (o : outcome A) : Machine :=
  match o with Ret _ m => m | Panic _ m => m end.

Definition returned {A} (o : outcome A) : option A :=
  match o with Ret a _ => Some a | Panic _ _ => None end.

Definition emit (ev : Event) (e : Env) : Env :=
  {| net := net e; journal := journal e ++ [ev] |}.

(** [log.WithField(...).Error(msg)] *)
Definition logError (msg : string) : M unit :=
  fun m => Ret tt {| self := self m; env := emit (EvLogError msg) (env m) |}.

(** [s.client.Exchange(m, s.dnsServer)] *)
Definition exchange (q : dns.Question) : M (dns.Msg + error) :=
  fun m =>
    let '(r, w) := Exchange q (dnsServer (self m)) (net (env m)) in
    Ret r {| self := self m;
             env := {| net := w;
                       journal := journal (env m)
                                    ++ [EvExchange q (dnsServer (self m))] |} |}.

(** [s.targetCache[target]] *)
Definition cacheLookup (target : string) : M (option IP) :=
  fun m => Ret (targetCache (self m) !! target) m.

(** [s.targetCache[target] = ip] *)
Definition cacheStore (target : string) (ip : IP) : M unit :=
  fun m => Ret tt {| self := {| dnsServer := dnsServer (self m);
                                dnsSearch := dnsSearch (self m);
                                targetCache := <[target := ip]> (targetCache (self m)) |};
                     env := env m |}.

Definition getSearch : M string := fun m => Ret (dnsSearch (self m)) m.

Notation "x <- c ;; k" := (bind c (fun x => k))
  (at level 100, c at next level, right associativity).
Notation "c ;;; k" := (bind c (fun _ => k))
  (at level 100, right associativity).

(** *** resolveTarget (discovery.go, lines 103-139) *)

(** The loop of lines 129-134: the first A record is stored and returned;
    running off the end of the answer is lines 136-137. *)
Fixpoint resolveTarget_range (target : string) (answer : list dns.RR)
  : M (IP * option error) :=
  match answer with
  | [] =>
      logError "Service lookup: No A entry in DNS response" ;;;
      ret ([], Some (Errorf "Service lookup: No A entry in DNS response"))
  | dns.RR_A a :: _ =>
      cacheStore target a ;;;
      ret (a, None)
  | _ :: rest => resolveTarget_range target rest
  end.

Definition resolveTarget (target : string) : M (IP * option error) :=
  hit <- cacheLookup target ;;
  match hit with
  | Some val => ret (val, None)
  | None =>
      let fqdn := Fqdn target in
      let m := dns.SetQuestion fqdn dns.TypeA in
      x <- exchange m ;;
      match x with
      | inr err =>
          logError "Error during connection to DNS server" ;;;
          ret ([], Some err)
      | inl r =>
          if negb (dns.Rcode r =? dns.RcodeSuccess)%Z then
            logError "Service lookup: Target DNS query did not succeed" ;;;
            ret ([], Some (Errorf "Service lookup: Target DNS query did not succeed"))
          else resolveTarget_range target (dns.Answer r)
      end
  end.

(** *** DiscoverAllServiceInstances (lines 65-101) *)

(** The loop of lines 87-98, [instances] being the slice built so far. *)
Fixpoint DiscoverAll_range (answer : list dns.RR) (instances : list ServiceInstance)
  : M (list ServiceInstance) :=
  match answer with
  | [] => ret instances
  | dns.RR_SRV srv :: rest =>
      match slice_to (dns.Target srv) (len (dns.Target srv) - 1) with
      | None => panic "slice bounds out of range"
      | Some target =>
          r <- resolveTarget target ;;
          match r with
          | (targetIp, None) =>
              DiscoverAll_range rest
                (instances ++ [ {| Ip := IP_String targetIp;
                                   Port := Sprintf_d (dns.Port srv) |} ])
          | (_, Some _) => DiscoverAll_range rest instances
          end
      end
  | _ :: rest => DiscoverAll_range rest instances
  end.

Definition DiscoverAllServiceInstances (serviceName : string)
  : M (list ServiceInstance * option error) :=
  let instances := [] in
  search <- getSearch ;;
  let fqdn := Fqdn (serviceName +:+ search) in
  let m := dns.SetQuestion fqdn dns.TypeSRV in
  x <- exchange m ;;
  match x with
  | inr err =>
      logError "Error during connection to DNS server" ;;;
      ret ([], Some err)
  | inl r =>
      if negb (dns.Rcode r =? dns.RcodeSuccess)%Z then
        logError "Service lookup: DNS query did not succeed" ;;;
        ret ([], Some (Errorf "Service lookup: DNS query did not succeed"))
      else
        instances <- DiscoverAll_range (dns.Answer r) instances ;;
        ret (instances, None)
  end.

(** *** DiscoverService (lines 51-63) *)

Definition DiscoverService (serviceName : string)
  : M (string * string * option error) :=
  r <- DiscoverAllServiceInstances serviceName ;;
  match r with
  | (_, Some err) => ret ("", "", Some err)
  | (instances, None) =>
      match instances with
      | [] =>
          logError "Service lookup: No SRV entry in DNS response" ;;;
          ret ("", "", Some (Errorf "Service lookup: No SRV entry in DNS response"))
      | i0 :: _ => ret (Ip i0, Port i0, None)
      end
  end.

(** *** NewConsulServiceDiscovery (lines 22-49)

    The constructor runs before there is a receiver, over the environment
    alone. *)

Definition lookupHost (host : string) (e : Env)
  : (list string * option error) * Env :=
  let '(r, w) := LookupHost host (net e) in
  (r, {| net := w; journal := journal e ++ [EvLookupHost host] |}).

Definition NewConsulServiceDiscovery (dnsServer : string) (e : Env)
  : (option consulServiceDiscovery * option error) * Env :=
  match SplitHostPort dnsServer with
  | inr err => ((None, Some err), e)
  | inl (host, port) =>
      let new (dnsServer : string) :=
        {| dnsServer := dnsServer;
           dnsSearch := ".service.consul";
           targetCache := ∅ |} in
      match ParseIP host with
      | None =>
          let '((addrs, err), e1) := lookupHost host e in
          match err with
          | Some err => ((None, Some err), e1)
          | None =>
              match addrs with
              | [] =>
                  ((None, Some (Errorf "No service discovery host could be resolved")),
                   emit (EvLogError "No service discovery host could be resolved") e1)
              | addr0 :: _ => ((Some (new (JoinHostPort addr0 port)), None), e1)
              end
          end
      | Some _ => ((Some (new dnsServer), None), e)
      end
  end.

(** *** Vocabulary of the properties *)

(** The question [DiscoverAllServiceInstances] asks for a service name. *)
Definition srvQuestion (serviceName : string) (m : Machine) : dns.Question :=
  dns.SetQuestion (Fqdn (serviceName +:+ dnsSearch (self m))) dns.TypeSRV.

(** The question [resolveTarget] asks on a cache miss. *)
Definition aQuestion (target : string) : dns.Question :=
  dns.SetQuestion (Fqdn target) dns.TypeA.

(** The machine once an exchange for [q] has come back leaving the
    network in state [w]. *)
Definition exchanged (q : dns.Question) (w : World) (m : Machine) : Machine :=
  {| self := self m;
     env := {| net := w;
               journal := journal (env m) ++ [EvExchange q (dnsServer (self m))] |} |}.

Definition logged (msg : string) (m : Machine) : Machine :=
  {| self := self m; env := emit (EvLogError msg) (env m) |}.

(** The machine once [target -> ip] has been stored (line 131). *)
Definition stored (target : string) (ip : IP) (m : Machine) : Machine :=
  {| self := {| dnsServer := dnsServer (self m);
                dnsSearch := dnsSearch (self m);
                targetCache := <[target := ip]> (targetCache (self m)) |};
     env := env m |}.

(** The first A record of an answer, if it has one. *)
Fixpoint firstA (answer : list dns.RR) : option IP :=
  match answer with
  | [] => None
  | dns.RR_A a :: _ => Some a
  | _ :: rest => firstA rest
  end.

(** The three ways a call of [resolveTarget] can go: a cache hit, a
    query whose first A record is stored, a query that fails. *)
Inductive resolveTarget_case (target : string) (m : Machine)
  : IP * option error -> Machine -> Prop :=
  | case_hit ip :
      targetCache (self m) !! target = Some ip ->
      resolveTarget_case target m (ip, None) m
  | case_store a w :
      targetCache (self m) !! target = None ->
      resolveTarget_case target m (a, None)
        (stored target a (exchanged (aQuestion target) w m))
  | case_fail e w msg :
      targetCache (self m) !! target = None ->
      resolveTarget_case target m ([], Some e)
        (logged msg (exchanged (aQuestion target) w m)).

(** [grows m m']: the resolver of [m'] is the one of [m] with, at most,
    more entries in its cache. *)
Definition grows (m m' : Machine) : Prop :=
  dnsServer (self m') = dnsServer (self m)
  /\ dnsSearch (self m') = dnsSearch (self m)
  /\ targetCache (self m) ⊆ targetCache (self m').

(** The target hostname taken from an SRV record (line 89). *)
Definition targetOf (srv : dns.SRV) : option string :=
  slice_to (dns.Target srv) (len (dns.Target srv) - 1).

(** The targets of a list of SRV records resolved one after the other,
    each by [resolveTarget], with the result of every resolution. *)
Fixpoint resolutions (srvs : list dns.SRV) : M (list (IP * option error)) :=
  match srvs with
  | [] => ret []
  | srv :: rest =>
      match targetOf srv with
      | None => panic "slice bounds out of range"
      | Some target =>
          r <- resolveTarget target ;;
          rs <- resolutions rest ;;
          ret (r :: rs)
      end
  end.

Definition resolved (r : IP * option error) : bool :=
  match r.2 with None => true | Some _ => false end.

Fixpoint failures (rs : list (IP * option error)) : nat :=
  match rs with
  | [] => 0%nat
  | r :: rs' => ((if resolved r then 0 else 1) + failures rs')%nat
  end.

(** The instance built from an SRV record and the address its target
    resolved to (lines 92-95). *)
Definition instanceOf (srv : dns.SRV) (ip : IP) : ServiceInstance :=
  {| Ip := IP_String ip; Port := Sprintf_d (dns.Port srv) |}.

(** The instances of the records whose resolution succeeded, in the order
    of the records. *)
Fixpoint built (srvs : list dns.SRV) (rs : list (IP * option error))
  : list ServiceInstance :=
  match srvs, rs with
  | srv :: srvs', (ip, None) :: rs' => instanceOf srv ip :: built srvs' rs'
  | _ :: srvs', (_, Some _) :: rs' => built srvs' rs'
  | _, _ => []
  end.

(** The operations of a resolver, and what can happen to a machine over
    time: calls of these operations, in any order and with any arguments,
    and changes of the network between them. *)
Inductive call : Type :=
  | CallResolveTarget (target : string)
  | CallDiscoverAll (serviceName : string)
  | CallDiscoverService (serviceName : string).

Definition after (c : call) (m : Machine) : Machine :=
  match c with
  | CallResolveTarget target => state_of (resolveTarget target m)
  | CallDiscoverAll name => state_of (DiscoverAllServiceInstances name m)
  | CallDiscoverService name => state_of (DiscoverService name m)
  end.

Inductive later : Machine -> Machine -> Prop :=
  | later_now m : later m m
  | later_call c m m' : later (after c m) m' -> later m m'
  | later_net w m m' :
      later {| self := self m;
               env := {| net := w; journal := journal (env m) |} |} m' ->
      later m m'.

(** The A queries for a list of targets, as journal entries. *)
Definition aQueries (server : string) (targets : list string) : list Event :=
  (fun t => EvExchange (aQuestion t) server) <$> targets.

(** The SRV records a call works through, read off what its SRV exchange
    gave: those of the answer when the exchange succeeded with response
    code success, none otherwise. *)
Definition answered (x : dns.Msg + error) : list dns.SRV :=
  match x with
  | inl r => if (dns.Rcode r =? dns.RcodeSuccess)%Z then srvRecords (dns.Answer r) else []
  | inr _ => []
  end.

(** The target of a record is in the cache with the address of its
    resolution. *)
Definition cachedAs (m : Machine) (srv : dns.SRV) (r : IP * option error) : Prop :=
  exists target,
    targetOf srv = Some target
    /\ targetCache (self m) !! target = Some r.1
    /\ r.2 = None.

(** An instance stands on an SRV record of [srvs] whose target [m] has in
    its cache. *)
Definition backed (m : Machine) (srvs : list dns.SRV) (i : ServiceInstance) : Prop :=
  exists srv target ip,
    srv ∈ srvs
    /\ targetOf srv = Some target
    /\ targetCache (self m) !! target = Some ip
    /\ i = instanceOf srv ip.

End Resolver.

Arguments Ret {World A} a m.
Arguments Panic {World A} msg m.

(** ** A scripted network, for running the model

    The DNS server is a zone, a table from questions to what the exchange
    gives back; a question outside the zone times out.  Host lookups go
    through a hosts table. *)

Module Fixture.

Record Net : Type := mkNet {
  zone : list (dns.Question * (dns.Msg + error));
  hosts : list (string * list string)
}.

Definition Question_eqb (a b : dns.Question) : bool :=
  String.eqb (dns.Name a) (dns.Name b) && dns.RRType_eqb (dns.Qtype a) (dns.Qtype b).

Fixpoint serve (q : dns.Question) (z : list (dns.Question * (dns.Msg + error)))
  : dns.Msg + error :=
  match z with
  | [] => inr (LibError "i/o timeout")
  | (q', r) :: z' => if Question_eqb q q' then r else serve q z'
  end.

Fixpoint hostsLookup (h : string) (t : list (string * list string))
  : list string * option error :=
  match t with
  | [] => ([], Some (LibError "no such host"))
  | (h', addrs) :: t' => if String.eqb h h' then (addrs, None) else hostsLookup h t'
  end.

Definition endsWithDot (s : string) : bool :=
  match String.get (String.length s - 1) s with
  | Some c => Ascii.eqb c "."
  | None => false
  end.

Definition fqdn (s : string) : string :=
  if endsWithDot s then s else s +:+ ".".

Definition byteString (b : Byte.byte) : string := Sprintf_d (Z.of_N (Byte.to_N b)).

Definition ipString (ip : IP) : string :=
  match ip with
  | [] => "<nil>"
  | [a; b; c; d] =>
      byteString a +:+ "." +:+ byteString b +:+ "." +:+ byteString c +:+ "." +:+ byteString d
  | _ => "?"
  end.

(** Split at the last colon. *)
Fixpoint splitColon (s : string) : option (string * string) :=
  match s with
  | EmptyString => None
  | String c rest =>
      match splitColon rest with
      | Some (h, p) => Some (String c h, p)
      | None => if Ascii.eqb c ":" then Some (EmptyString, rest) else None
      end
  end.

Definition splitHostPort (s : string) : (string * string) + error :=
  match splitColon s with
  | Some hp => inl hp
  | None => inr (LibError "missing port in address")
  end.

Fixpoint splitDots (s : string) : list string :=
  match s with
  | EmptyString => [EmptyString]
  | String c rest =>
      if Ascii.eqb c "." then EmptyString :: splitDots rest
      else match splitDots rest with
           | [] => [String c EmptyString]
           | p :: ps => String c p :: ps
           end
  end.

Definition parseByte (s : string) : option Byte.byte :=
  match NilEmpty.uint_of_string s with
  | Some u => Byte.of_N (N.of_uint u)
  | None => None
  end.

Definition parseIP (s : string) : option IP :=
  match splitDots s with
  | [a; b; c; d] =>
      match parseByte a, parseByte b, parseByte c, parseByte d with
      | Some a, Some b, Some c, Some d => Some [a; b; c; d]
      | _, _, _, _ => None
      end
  | _ => None
  end.

#[export] Instance client : DnsClient Net :=
  {| Exchange q server w := (serve q (zone w), w) |}.

#[export] Instance netlib : NetLib Net :=
  {| Fqdn := fqdn;
     IP_String := ipString;
     SplitHostPort := splitHostPort;
     ParseIP := parseIP;
     LookupHost h w := (hostsLookup h (hosts w), w);
     JoinHostPort h p := h +:+ ":" +:+ p |}.

Definition ipv4 (a b c d : N) : IP :=
  match Byte.of_N a, Byte.of_N b, Byte.of_N c, Byte.of_N d with
  | Some a, Some b, Some c, Some d => [a; b; c; d]
  | _, _, _, _ => []
  end.

Definition srv (target : string) (port : Z) : dns.RR :=
  dns.RR_SRV {| dns.Priority := 1; dns.Weight := 1; dns.Port := port; dns.Target := target |}.

Definition ok (answer : list dns.RR) : dns.Msg + error :=
  inl {| dns.Rcode := dns.RcodeSuccess; dns.Answer := answer |}.

Definition askSRV (name : string) : dns.Question := dns.SetQuestion name dns.TypeSRV.
Definition askA (name : string) : dns.Question := dns.SetQuestion name dns.TypeA.

(** The zone of the example of the specification: service [api] on two
    nodes; and services whose answers are defective in one way each. *)
Definition exampleZone : list (dns.Question * (dns.Msg + error)) :=
  [ (askSRV "api.service.consul.",
      ok [srv "host1.node.dc1.consul." 8080; srv "host2.node.dc1.consul." 8081]);
    (askA "host1.node.dc1.consul.", ok [dns.RR_A (ipv4 10 0 0 1)]);
    (askA "host2.node.dc1.consul.", ok [dns.RR_A (ipv4 10 0 0 2)]);
    (askSRV "half.service.consul.",
      ok [srv "host1.node.dc1.consul." 9000; srv "gone.node.dc1.consul." 9001;
          dns.RR_other; srv "host2.node.dc1.consul." 9002]);
    (askA "gone.node.dc1.consul.", ok [dns.RR_other]);
    (askSRV "none.service.consul.", ok [dns.RR_other; dns.RR_A (ipv4 10 0 0 9)]);
    (askSRV "refused.service.consul.",
      inl {| dns.Rcode := 5; dns.Answer := [srv "host1.node.dc1.consul." 8080] |});
    (askSRV "broken.service.consul.",
      ok [srv "host1.node.dc1.consul." 8080; srv "" 8081]) ].

Definition exampleNet : Net :=
  {| zone := exampleZone; hosts := [("consul.local", ["10.0.0.53"; "10.0.0.54"]); ("empty.local", [])] |}.

Definition freshEnv : Env := {| net := exampleNet; journal := [] |}.

(** A resolver straight from the constructor, on the example network. *)
Definition fresh : Machine :=
  {| self := {| dnsServer := "10.0.0.53:8600";
                dnsSearch := ".service.consul";
                targetCache := ∅ |};
     env := freshEnv |}.

(** The message the zone holds for a question. *)
Definition msg (q : dns.Question) : dns.Msg :=
  match serve q exampleZone with
  | inl r => r
  | inr _ => {| dns.Rcode := 2; dns.Answer := [] |}
  end.

Definition host1 : string := "host1.node.dc1.consul".
Definition host2 : string := "host2.node.dc1.consul".
Definition gone : string := "gone.node.dc1.consul".

End Fixture.

(** ** More scripted services

    The example zone with services whose SRV answers exercise the edges of
    the resolution: a target without its final dot, targets that all fail,
    a failing target in front of a good one, a refused A query that
    carries an address all the same. *)

Module Scenario.

Import Fixture.

Definition moreZone : list (dns.Question * (dns.Msg + error)) :=
  [ (askSRV "cut.service.consul.", ok [srv "host1" 7000]);
    (askA "host.", ok [dns.RR_A (ipv4 10 0 0 7)]);
    (askSRV "down.service.consul.",
      ok [srv "gone.node.dc1.consul." 7001; srv "bad.node.dc1.consul." 7002]);
    (askA "bad.node.dc1.consul.",
      inl {| dns.Rcode := 3; dns.Answer := [dns.RR_A (ipv4 10 0 0 8)] |});
    (askSRV "late.service.consul.",
      ok [srv "gone.node.dc1.consul." 7003; dns.RR_other;
          srv "host2.node.dc1.consul." 7004; srv "host1.node.dc1.consul." 7005]);
    (askSRV "mixed.service.consul.",
      ok [dns.RR_other; srv "host1.node.dc1.consul." 8080;
          dns.RR_A (ipv4 10 0 0 9); srv "host2.node.dc1.consul." 8081]) ].

Definition moreNet : Net :=
  {| zone := exampleZone ++ moreZone; hosts := hosts exampleNet |}.

(** A new resolver on that network. *)
Definition cold : Machine :=
  {| self := {| dnsServer := "10.0.0.53:8600";
                dnsSearch := ".service.consul";
                targetCache := ∅ |};
     env := {| net := moreNet; journal := [] |} |}.

Definition bad : string := "bad.node.dc1.consul".

End Scenario.

(** * Properties *)

Section Properties.

Context {World : Type} `{!DnsClient World} `{!NetLib World}.

Implicit Types (m : @Machine World) (target name : string) (ip : IP).

Ltac run := unfold bind, ret, panic, cacheLookup, cacheStore, logError, getSearch; simpl.

(** ** Journals *)

Lemma queries_app t j1 j2 :
  queries t (j1 ++ j2) = (queries t j1 + queries t j2)%nat.
Proof. induction j1 as [|ev j1 IH]; simpl; [done | rewrite IH; lia]. Qed.

Lemma exchanges_app j1 j2 :
  exchanges (j1 ++ j2) = exchanges j1 ++ exchanges j2.
Proof.
  induction j1 as [|ev j1 IH]; simpl; [done |].
  destruct (isExchange ev); simpl; by rewrite IH.
Qed.

(** ** Decimal formatting

    [Sprintf_d] writes the decimal numeral of its argument: reading the
    string back as a decimal numeral gives the number. *)

Lemma Sprintf_d_reads_back (n : Z) :
  Z.of_int <$> NilZero.int_of_string (Sprintf_d n) = Some n.
Proof.
  unfold Sprintf_d. rewrite NilZero.isi.
  - simpl. f_equal. apply DecimalZ.of_to.
  - destruct n; simpl; try done. intros [= H]. by apply Unsigned.to_uint_nonnil in H.
  - destruct n; simpl; try done. intros [= H]. by apply Unsigned.to_uint_nonnil in H.
Qed.

(** ** The slice of line 89 *)

Lemma len_nonneg (s : string) : 0 <= len s.
Proof. unfold len. lia. Qed.

Lemma len_empty (s : string) : len s = 0 -> s = "".
Proof. unfold len. destruct s; simpl; [done | lia]. Qed.

Lemma slice_to_empty : slice_to "" (len "" - 1) = None.
Proof. reflexivity. Qed.

Lemma slice_to_nonempty (s : string) :
  s <> "" -> slice_to s (len s - 1) = Some (substring 0 (String.length s - 1) s).
Proof.
  intros Hs. unfold slice_to.
  assert (0 < len s) as Hpos by (unfold len; destruct s; [done | simpl; lia]).
  destruct (Z.ltb_spec (len s - 1) 0) as [?|_]; [lia |].
  destruct (Z.ltb_spec (len s) (len s - 1)) as [?|_]; [lia |].
  simpl. do 2 f_equal. unfold len. lia.
Qed.

Lemma substring_app_dot (h : string) :
  substring 0 (String.length h) (h +:+ ".") = h.
Proof. induction h as [|c h IH]; simpl; [done | by rewrite IH]. Qed.

Lemma length_app_dot (h : string) :
  String.length (h +:+ ".") = S (String.length h).
Proof. induction h as [|c h IH]; simpl; [done | by rewrite IH]. Qed.

Lemma slice_to_dot (h : string) :
  slice_to (h +:+ ".") (len (h +:+ ".") - 1) = Some h.
Proof.
  rewrite slice_to_nonempty by (by destruct h).
  rewrite length_app_dot. simpl. rewrite Nat.sub_0_r.
  by rewrite substring_app_dot.
Qed.

(** ** resolveTarget *)

Lemma resolveTarget_range_eq target answer m :
  resolveTarget_range target answer m =
  match firstA answer with
  | Some a => Ret (a, None) (stored target a m)
  | None =>
      Ret ([], Some NoRecordError)
          (logged "Service lookup: No A entry in DNS response" m)
  end.
Proof.
  induction answer as [|[srv|a|] rest IH]; simpl; try done.
Qed.

Lemma resolveTarget_hit target m ip :
  targetCache (self m) !! target = Some ip ->
  resolveTarget target m = Ret (ip, None) m.
Proof. intros H. unfold resolveTarget. run. by rewrite H. Qed.

Lemma resolveTarget_miss target m x w :
  targetCache (self m) !! target = None ->
  Exchange (aQuestion target) (dnsServer (self m)) (net (env m)) = (x, w) ->
  resolveTarget target m =
  match x with
  | inr err =>
      Ret ([], Some err)
          (logged "Error during connection to DNS server"
                  (exchanged (aQuestion target) w m))
  | inl r =>
      if (dns.Rcode r =? dns.RcodeSuccess)%Z then
        match firstA (dns.Answer r) with
        | Some a => Ret (a, None) (stored target a (exchanged (aQuestion target) w m))
        | None =>
            Ret ([], Some NoRecordError)
                (logged "Service lookup: No A entry in DNS response"
                        (exchanged (aQuestion target) w m))
        end
      else
        Ret ([], Some TargetQueryFailedError)
            (logged "Service lookup: Target DNS query did not succeed"
                    (exchanged (aQuestion target) w m))
  end.
Proof.
  intros Hmiss Hx. unfold resolveTarget. run. rewrite Hmiss.
  unfold exchange, aQuestion in *. rewrite Hx.
  destruct x as [r|err]; [|done].
  destruct (dns.Rcode r =? dns.RcodeSuccess)%Z; simpl; [|done].
  apply resolveTarget_range_eq.
Qed.

Lemma resolveTarget_cases target m :
  exists r m', resolveTarget target m = Ret r m' /\ resolveTarget_case target m r m'.
Proof.
  destruct (targetCache (self m) !! target) as [ip|] eqn:Hc.
  - exists (ip, None), m. split; [by apply resolveTarget_hit | by constructor].
  - destruct (Exchange (aQuestion target) (dnsServer (self m)) (net (env m)))
      as [x w] eqn:Hx.
    rewrite (resolveTarget_miss _ _ _ _ Hc Hx).
    destruct x as [r|err].
    + destruct (dns.Rcode r =? dns.RcodeSuccess)%Z.
      * destruct (firstA (dns.Answer r)) as [a|];
          eexists _, _; (split; [reflexivity | by constructor]).
      * eexists _, _; (split; [reflexivity | by constructor]).
    + eexists _, _; (split; [reflexivity | by constructor]).
Qed.

(** ** What no operation undoes *)

Lemma grows_refl m : grows m m.
Proof. by repeat split. Qed.

Lemma grows_trans m1 m2 m3 : grows m1 m2 -> grows m2 m3 -> grows m1 m3.
Proof.
  intros (Ha & Hb & Hc) (Ha' & Hb' & Hc'). repeat split; try congruence.
  by etrans.
Qed.

Lemma grows_self m m' : self m' = self m -> grows m m'.
Proof. intros H. unfold grows. by rewrite H. Qed.

Lemma resolveTarget_case_grows target m r m' :
  resolveTarget_case target m r m' -> grows m m'.
Proof.
  destruct 1 as [ip H|a w H|e w msg H]; [apply grows_refl | | by apply grows_self].
  repeat split; simpl; try done. by apply insert_subseteq.
Qed.

Lemma resolveTarget_grows target m : grows m (state_of (resolveTarget target m)).
Proof.
  destruct (resolveTarget_cases target m) as (r & m' & -> & Hcase).
  simpl. by eapply resolveTarget_case_grows.
Qed.

Lemma DiscoverAll_range_grows answer instances m :
  grows m (state_of (DiscoverAll_range answer instances m)).
Proof.
  revert instances m.
  induction answer as [|[srv|a|] rest IH]; intros instances m; simpl;
    try apply grows_refl; try apply IH.
  destruct (slice_to _ _) as [target|]; [|apply grows_refl].
  run. destruct (resolveTarget_cases target m) as (r & m' & -> & Hcase).
  apply resolveTarget_case_grows in Hcase.
  destruct r as [ip [e|]]; (eapply grows_trans; [exact Hcase | apply IH]).
Qed.

Lemma exchange_eq q m x w :
  Exchange q (dnsServer (self m)) (net (env m)) = (x, w) ->
  exchange q m = Ret x (exchanged q w m).
Proof. intros H. unfold exchange. by rewrite H. Qed.

(** [DiscoverAllServiceInstances], read off the result of its SRV
    exchange. *)
Lemma DiscoverAll_eq name m x w :
  Exchange (srvQuestion name m) (dnsServer (self m)) (net (env m)) = (x, w) ->
  DiscoverAllServiceInstances name m =
  match x with
  | inr err =>
      Ret ([], Some err)
          (logged "Error during connection to DNS server"
                  (exchanged (srvQuestion name m) w m))
  | inl r =>
      if (dns.Rcode r =? dns.RcodeSuccess)%Z then
        match DiscoverAll_range (dns.Answer r) [] (exchanged (srvQuestion name m) w m) with
        | Ret instances m' => Ret (instances, None) m'
        | Panic msg m' => Panic msg m'
        end
      else
        Ret ([], Some QueryFailedError)
            (logged "Service lookup: DNS query did not succeed"
                    (exchanged (srvQuestion name m) w m))
  end.
Proof.
  intros Hx. unfold DiscoverAllServiceInstances. run.
  unfold srvQuestion in Hx. rewrite (exchange_eq _ _ _ _ Hx).
  destruct x as [r|err]; [|done].
  by destruct (dns.Rcode r =? dns.RcodeSuccess)%Z.
Qed.

Lemma DiscoverAll_grows name m :
  grows m (state_of (DiscoverAllServiceInstances name m)).
Proof.
  destruct (Exchange (srvQuestion name m) (dnsServer (self m)) (net (env m)))
    as [x w] eqn:Hx.
  rewrite (DiscoverAll_eq _ _ _ _ Hx).
  destruct x as [r|err]; [|by apply grows_self].
  destruct (dns.Rcode r =? dns.RcodeSuccess)%Z; [|by apply grows_self].
  pose proof (DiscoverAll_range_grows (dns.Answer r) []
                (exchanged (srvQuestion name m) w m)) as Hg.
  destruct (DiscoverAll_range _ _ _); simpl in *;
    (eapply grows_trans; [|exact Hg]); by apply grows_self.
Qed.

Lemma DiscoverService_grows name m :
  grows m (state_of (DiscoverService name m)).
Proof.
  pose proof (DiscoverAll_grows name m) as Hg.
  unfold DiscoverService. run.
  destruct (DiscoverAllServiceInstances name m) as [[instances [e|]] m'|msg m'];
    simpl in *; try done.
  destruct instances; simpl; [|done].
  eapply grows_trans; [exact Hg | by apply grows_self].
Qed.

Lemma after_grows c m : grows m (after c m).
Proof.
  destruct c; simpl;
    [apply resolveTarget_grows | apply DiscoverAll_grows | apply DiscoverService_grows].
Qed.

Lemma later_grows m m' : later m m' -> grows m m'.
Proof.
  induction 1 as [m|c m m' _ IH|w m m' _ IH]; [apply grows_refl | |].
  - eapply grows_trans; [apply after_grows | exact IH].
  - eapply grows_trans; [|exact IH]. by apply grows_self.
Qed.

(** ** The loop of DiscoverAllServiceInstances *)

Lemma resolutions_length srvs m rs m' :
  resolutions srvs m = Ret rs m' -> length rs = length srvs.
Proof.
  revert m rs m'. induction srvs as [|srv srvs IH]; intros m rs m'; simpl.
  - intros [= <- _]. done.
  - destruct (targetOf srv); [|done]. run.
    destruct (resolveTarget _ m) as [r m1|]; [|done].
    destruct (resolutions srvs m1) as [rs' m2|] eqn:Hrs; [|done].
    intros [= <- _]. simpl. f_equal. by eapply IH.
Qed.

Lemma built_length srvs rs :
  length rs = length srvs ->
  (length (built srvs rs) + failures rs)%nat = length srvs.
Proof.
  revert rs. induction srvs as [|srv srvs IH]; intros [|[ip [e|]] rs]; simpl;
    try done; intros [= Hlen]; specialize (IH _ Hlen); unfold resolved; simpl; lia.
Qed.

Lemma built_lookup srvs rs i srv :
  length rs = length srvs ->
  failures rs = 0%nat ->
  srvs !! i = Some srv ->
  exists ip, rs !! i = Some (ip, None) /\ built srvs rs !! i = Some (instanceOf srv ip).
Proof.
  revert rs i. induction srvs as [|srv0 srvs IH]; intros [|[ip [e|]] rs] i; simpl;
    try done; intros [= Hlen]; unfold resolved; simpl; try lia.
  intros Hf. destruct i as [|i]; simpl.
  - intros [= ->]. by exists ip.
  - by apply IH.
Qed.

Lemma DiscoverAll_range_resolutions answer instances m :
  DiscoverAll_range answer instances m =
  match resolutions (srvRecords answer) m with
  | Ret rs m' => Ret (instances ++ built (srvRecords answer) rs) m'
  | Panic msg m' => Panic msg m'
  end.
Proof.
  revert instances m.
  induction answer as [|[srv|a|] rest IH]; intros instances m; simpl; try apply IH.
  - run. by rewrite app_nil_r.
  - unfold targetOf. destruct (slice_to _ _) as [target|]; [|done]. run.
    destruct (resolveTarget target m) as [[ip [e|]] m1|msg m1]; [| |done];
      rewrite IH; destruct (resolutions _ m1); simpl; try done.
    by rewrite <- app_assoc.
Qed.

Lemma DiscoverAll_success name m r w :
  Exchange (srvQuestion name m) (dnsServer (self m)) (net (env m)) = (inl r, w) ->
  dns.Rcode r = dns.RcodeSuccess ->
  DiscoverAllServiceInstances name m =
  match resolutions (srvRecords (dns.Answer r)) (exchanged (srvQuestion name m) w m) with
  | Ret rs m' => Ret (built (srvRecords (dns.Answer r)) rs, None) m'
  | Panic msg m' => Panic msg m'
  end.
Proof.
  intros Hx Hr. rewrite (DiscoverAll_eq _ _ _ _ Hx), Hr. simpl.
  rewrite DiscoverAll_range_resolutions. by destruct (resolutions _ _).
Qed.

(** ** The properties of the specification *)

(** C1.  When the SRV query succeeds and the target of every one of its N
    SRV records resolves, [DiscoverAllServiceInstances] returns, with a nil
    error, exactly N instances in the order of the SRV records: the i-th
    has the formatted address the i-th target resolved to, and the i-th
    port in decimal. *)
Theorem DiscoverAll_all_resolved name m r w rs m' :
  Exchange (srvQuestion name m) (dnsServer (self m)) (net (env m)) = (inl r, w) ->
  dns.Rcode r = dns.RcodeSuccess ->
  resolutions (srvRecords (dns.Answer r)) (exchanged (srvQuestion name m) w m)
    = Ret rs m' ->
  failures rs = 0%nat ->
  exists instances,
    DiscoverAllServiceInstances name m = Ret (instances, None) m'
    /\ length instances = length (srvRecords (dns.Answer r))
    /\ forall i srv, srvRecords (dns.Answer r) !! i = Some srv ->
         exists ip, rs !! i = Some (ip, None)
                    /\ instances !! i
                       = Some {| Ip := IP_String ip; Port := Sprintf_d (dns.Port srv) |}.
Proof.
  intros Hx Hr Hrs Hf. exists (built (srvRecords (dns.Answer r)) rs).
  pose proof (resolutions_length _ _ _ _ Hrs) as Hlen.
  split; [by rewrite (DiscoverAll_success _ _ _ _ Hx Hr), Hrs |].
  split.
  - pose proof (built_length _ _ Hlen). lia.
  - intros i srv Hi. by apply built_lookup.
Qed.

(** C2.  When [DiscoverAllServiceInstances] returns a non-nil error, the
    list it returns has no instance; the error is the one of the SRV
    exchange or the one for its response code, the SRV exchange is the only
    exchange of the call, and the resolver is as it was. *)
Theorem DiscoverAll_error_without_instances name m instances e m' :
  DiscoverAllServiceInstances name m = Ret (instances, Some e) m' ->
  instances = []
  /\ ((exists w, Exchange (srvQuestion name m) (dnsServer (self m)) (net (env m))
                 = (inr e, w))
      \/ (exists r w, Exchange (srvQuestion name m) (dnsServer (self m)) (net (env m))
                      = (inl r, w)
                      /\ dns.Rcode r <> dns.RcodeSuccess
                      /\ e = QueryFailedError))
  /\ exchanges (journal (env m'))
     = exchanges (journal (env m))
         ++ [EvExchange (srvQuestion name m) (dnsServer (self m))]
  /\ self m' = self m.
Proof.
  destruct (Exchange (srvQuestion name m) (dnsServer (self m)) (net (env m)))
    as [x w] eqn:Hx.
  rewrite (DiscoverAll_eq _ _ _ _ Hx).
  destruct x as [r|err].
  - destruct (Z.eqb_spec (dns.Rcode r) dns.RcodeSuccess) as [Hr|Hr].
    + by destruct (DiscoverAll_range _ _ _).
    + intros [= <- <- <-]. simpl. repeat split; [by right; eauto |].
      by rewrite !exchanges_app, app_nil_r.
  - intros [= <- <- <-]. simpl. repeat split; [by left; eauto |].
    by rewrite !exchanges_app, app_nil_r.
Qed.

(** C3.  When the SRV query succeeds and, of the resolutions of its N SRV
    targets, exactly one fails, [DiscoverAllServiceInstances] returns N-1
    instances, those of the other records in order, and a nil error. *)
Theorem DiscoverAll_one_failure name m r w rs m' :
  Exchange (srvQuestion name m) (dnsServer (self m)) (net (env m)) = (inl r, w) ->
  dns.Rcode r = dns.RcodeSuccess ->
  resolutions (srvRecords (dns.Answer r)) (exchanged (srvQuestion name m) w m)
    = Ret rs m' ->
  failures rs = 1%nat ->
  exists instances,
    DiscoverAllServiceInstances name m = Ret (instances, None) m'
    /\ length instances = (length (srvRecords (dns.Answer r)) - 1)%nat
    /\ (1 <= length (srvRecords (dns.Answer r)))%nat
    /\ instances = built (srvRecords (dns.Answer r)) rs.
Proof.
  intros Hx Hr Hrs Hf. exists (built (srvRecords (dns.Answer r)) rs).
  pose proof (resolutions_length _ _ _ _ Hrs) as Hlen.
  pose proof (built_length _ _ Hlen).
  split; [by rewrite (DiscoverAll_success _ _ _ _ Hx Hr), Hrs |].
  repeat split; lia.
Qed.

(** C4.  [resolveTarget] memoizes successes.  When the target is not in
    the cache and the A exchange answers with code success and an A record,
    the call returns the address of the first A record and stores it; from
    then on every call for that target, whatever the resolver was asked and
    however the network changed in between, returns that address and
    leaves the machine, its network and its journal as they are: no
    exchange.  So the two calls together issue exactly one A query.  The
    same holds after any successful call, cache hit or not: every later
    call returns the address it returned, without an exchange. *)
Theorem resolveTarget_memoizes target m r w a :
  targetCache (self m) !! target = None ->
  Exchange (aQuestion target) (dnsServer (self m)) (net (env m)) = (inl r, w) ->
  dns.Rcode r = dns.RcodeSuccess ->
  firstA (dns.Answer r) = Some a ->
  let m1 := stored target a (exchanged (aQuestion target) w m) in
  resolveTarget target m = Ret (a, None) m1
  /\ targetCache (self m1) !! target = Some a
  /\ (forall m2, later m1 m2 -> resolveTarget target m2 = Ret (a, None) m2)
  /\ exchanges (journal (env (state_of (resolveTarget target m1))))
     = exchanges (journal (env m))
         ++ [EvExchange (aQuestion target) (dnsServer (self m))]
  /\ queries dns.TypeA (journal (env (state_of (resolveTarget target m1))))
     = S (queries dns.TypeA (journal (env m)))
  /\ (forall m0 ip m0' m2,
        resolveTarget target m0 = Ret (ip, None) m0' ->
        later m0' m2 ->
        resolveTarget target m2 = Ret (ip, None) m2).
Proof.
  intros Hmiss Hx Hr Ha m1.
  assert (resolveTarget target m = Ret (a, None) m1) as Hfirst.
  { rewrite (resolveTarget_miss _ _ _ _ Hmiss Hx), Hr, Ha. done. }
  assert (forall m0 ip m0' m2,
            resolveTarget target m0 = Ret (ip, None) m0' ->
            later m0' m2 ->
            resolveTarget target m2 = Ret (ip, None) m2) as Hmemo.
  { intros m0 ip m0' m2 Hret Hlater. apply resolveTarget_hit.
    destruct (resolveTarget_cases target m0) as (r0 & m0'' & Heq & Hcase).
    rewrite Heq in Hret. injection Hret as -> ->.
    destruct (later_grows _ _ Hlater) as (_ & _ & Hsub).
    eapply lookup_weaken; [|exact Hsub].
    inversion Hcase; subst; simpl; [done | by apply lookup_insert_eq]. }
  assert (targetCache (self m1) !! target = Some a) as Hin
    by (subst m1; simpl; apply lookup_insert_eq).
  split; [done |]. split; [done |].
  split; [intros m2 Hlater; by eapply Hmemo |].
  rewrite (resolveTarget_hit _ _ _ Hin). subst m1. simpl.
  rewrite exchanges_app, queries_app. simpl.
  split; [done |]. split; [lia | done].
Qed.

(** C5.  When the SRV query succeeds and its answer has no SRV record,
    [DiscoverAllServiceInstances] returns an empty list and a nil error,
    and [DiscoverService] returns empty ip and port with the error
    "No SRV entry". *)
Theorem no_SRV_record name m r w :
  Exchange (srvQuestion name m) (dnsServer (self m)) (net (env m)) = (inl r, w) ->
  dns.Rcode r = dns.RcodeSuccess ->
  srvRecords (dns.Answer r) = [] ->
  DiscoverAllServiceInstances name m
    = Ret ([], None) (exchanged (srvQuestion name m) w m)
  /\ DiscoverService name m
     = Ret ("", "", Some NoInstanceError)
           (logged "Service lookup: No SRV entry in DNS response"
                   (exchanged (srvQuestion name m) w m)).
Proof.
  intros Hx Hr Hnone.
  assert (DiscoverAllServiceInstances name m
          = Ret ([], None) (exchanged (srvQuestion name m) w m)) as Hall.
  { rewrite (DiscoverAll_success _ _ _ _ Hx Hr), Hnone. done. }
  split; [done |]. unfold DiscoverService. run. by rewrite Hall.
Qed.

(** C6.  When the SRV exchange fails, [DiscoverAllServiceInstances] returns
    the error of the exchange and no instance; when the exchange succeeds
    with a response code other than success, it returns the error "DNS
    query did not succeed" and no instance.  In both cases the SRV exchange
    is the only exchange of the call: no A query, no second attempt. *)
Theorem SRV_query_failure name m :
  (forall e w,
     Exchange (srvQuestion name m) (dnsServer (self m)) (net (env m)) = (inr e, w) ->
     exists m',
       DiscoverAllServiceInstances name m = Ret ([], Some e) m'
       /\ exchanges (journal (env m'))
          = exchanges (journal (env m))
              ++ [EvExchange (srvQuestion name m) (dnsServer (self m))]
       /\ queries dns.TypeA (journal (env m')) = queries dns.TypeA (journal (env m))
       /\ queries dns.TypeSRV (journal (env m'))
          = S (queries dns.TypeSRV (journal (env m))))
  /\ (forall r w,
       Exchange (srvQuestion name m) (dnsServer (self m)) (net (env m)) = (inl r, w) ->
       dns.Rcode r <> dns.RcodeSuccess ->
       exists m',
         DiscoverAllServiceInstances name m = Ret ([], Some QueryFailedError) m'
         /\ exchanges (journal (env m'))
            = exchanges (journal (env m))
                ++ [EvExchange (srvQuestion name m) (dnsServer (self m))]
         /\ queries dns.TypeA (journal (env m')) = queries dns.TypeA (journal (env m))
         /\ queries dns.TypeSRV (journal (env m'))
            = S (queries dns.TypeSRV (journal (env m)))).
Proof.
  split.
  - intros e w Hx. eexists. rewrite (DiscoverAll_eq _ _ _ _ Hx).
    split; [reflexivity |]. simpl.
    rewrite !exchanges_app, !queries_app. simpl.
    repeat split; [by rewrite app_nil_r | lia | lia].
  - intros r w Hx Hr. eexists. rewrite (DiscoverAll_eq _ _ _ _ Hx).
    destruct (Z.eqb_spec (dns.Rcode r) dns.RcodeSuccess) as [?|_]; [done |].
    split; [reflexivity |]. simpl.
    rewrite !exchanges_app, !queries_app. simpl.
    repeat split; [by rewrite app_nil_r | lia | lia].
Qed.

(** C7.  The cache holds at most one address for a target; an entry of
    the cache stays as it is through every later operation; a successful
    query stores the first A record of its answer under the target; a query
    whose answer has no A record returns the error "No A entry" and stores
    nothing, and the next call for the same target sends the A query
    again. *)
Theorem cache_first_resolution_wins :
  (forall m target ip ip',
     targetCache (self m) !! target = Some ip ->
     targetCache (self m) !! target = Some ip' ->
     ip = ip')
  /\ (forall m m' target ip,
     targetCache (self m) !! target = Some ip ->
     later m m' ->
     targetCache (self m') !! target = Some ip)
  /\ (forall target m r w a,
       targetCache (self m) !! target = None ->
       Exchange (aQuestion target) (dnsServer (self m)) (net (env m)) = (inl r, w) ->
       dns.Rcode r = dns.RcodeSuccess ->
       firstA (dns.Answer r) = Some a ->
       exists m1,
         resolveTarget target m = Ret (a, None) m1
         /\ targetCache (self m1) = <[target := a]> (targetCache (self m)))
  /\ (forall target m r w,
       targetCache (self m) !! target = None ->
       Exchange (aQuestion target) (dnsServer (self m)) (net (env m)) = (inl r, w) ->
       dns.Rcode r = dns.RcodeSuccess ->
       firstA (dns.Answer r) = None ->
       exists m1,
         resolveTarget target m = Ret ([], Some NoRecordError) m1
         /\ targetCache (self m1) = targetCache (self m)
         /\ exists r2 m2,
              resolveTarget target m1 = Ret r2 m2
              /\ exchanges (journal (env m2))
                 = exchanges (journal (env m1))
                     ++ [EvExchange (aQuestion target) (dnsServer (self m1))]).
Proof.
  split; [|split; [|split]].
  - intros m target ip ip' H1 H2. congruence.
  - intros m m' target ip Hin Hlater.
    destruct (later_grows _ _ Hlater) as (_ & _ & Hsub).
    by eapply lookup_weaken.
  - intros target m r w a Hmiss Hx Hr Ha. eexists.
    rewrite (resolveTarget_miss _ _ _ _ Hmiss Hx), Hr, Ha. simpl. done.
  - intros target m r w Hmiss Hx Hr Ha. eexists.
    rewrite (resolveTarget_miss _ _ _ _ Hmiss Hx), Hr, Ha. simpl.
    split; [reflexivity |]. split; [done |].
    set (m1 := logged _ _).
    destruct (resolveTarget_cases target m1) as (r2 & m2 & Heq & Hcase).
    exists r2, m2. split; [done |].
    inversion Hcase; subst; simpl in *; try congruence;
      rewrite !exchanges_app; simpl; by rewrite ?app_nil_r.
Qed.

(** C8.  [NewConsulServiceDiscovery]: an address that does not split gives
    the error of the split; a host that is not a literal IP is looked up,
    with the error of the lookup when it fails, the error "No service
    discovery host could be resolved" when it returns no address, and
    otherwise a resolver whose server is the first address joined with the
    port; a literal IP is not looked up and the server is the address as
    given. *)
Theorem NewConsulServiceDiscovery_spec dnsServer0 (e : @Env World) :
  (forall err,
     SplitHostPort dnsServer0 = inr err ->
     NewConsulServiceDiscovery dnsServer0 e = ((None, Some err), e))
  /\ (forall host port addrs err w,
       SplitHostPort dnsServer0 = inl (host, port) ->
       ParseIP host = None ->
       LookupHost host (net e) = ((addrs, err), w) ->
       let e1 := {| net := w; journal := journal e ++ [EvLookupHost host] |} in
       match err, addrs with
       | Some x, _ => NewConsulServiceDiscovery dnsServer0 e = ((None, Some x), e1)
       | None, [] =>
           NewConsulServiceDiscovery dnsServer0 e
           = ((None, Some NoHostError),
              emit (EvLogError "No service discovery host could be resolved") e1)
       | None, addr0 :: _ =>
           NewConsulServiceDiscovery dnsServer0 e
           = ((Some {| dnsServer := JoinHostPort addr0 port;
                       dnsSearch := ".service.consul";
                       targetCache := ∅ |}, None), e1)
       end)
  /\ (forall host port ip,
       SplitHostPort dnsServer0 = inl (host, port) ->
       ParseIP host = Some ip ->
       NewConsulServiceDiscovery dnsServer0 e
       = ((Some {| dnsServer := dnsServer0;
                   dnsSearch := ".service.consul";
                   targetCache := ∅ |}, None), e)
       /\ lookups (journal (snd (NewConsulServiceDiscovery dnsServer0 e)))
          = lookups (journal e)).
Proof.
  unfold NewConsulServiceDiscovery. split; [|split].
  - by intros err ->.
  - intros host port addrs err w -> -> Hl. unfold lookupHost. rewrite Hl.
    by destruct err, addrs.
  - by intros host port ip -> ->.
Qed.

(** C9.  The slice of line 89 is taken without a check: a successful SRV
    answer holding an SRV record with an empty target makes
    [DiscoverAllServiceInstances] panic.  On a target that ends in a dot
    the slice is the target without that dot, and when every SRV target of
    the answer ends in a dot the call returns. *)
Theorem target_slice name m r w :
  Exchange (srvQuestion name m) (dnsServer (self m)) (net (env m)) = (inl r, w) ->
  dns.Rcode r = dns.RcodeSuccess ->
  ((exists srv, srv ∈ srvRecords (dns.Answer r) /\ dns.Target srv = "") ->
   exists msg m', DiscoverAllServiceInstances name m = Panic msg m')
  /\ (forall host, slice_to (host +:+ ".") (len (host +:+ ".") - 1) = Some host)
  /\ ((forall srv, srv ∈ srvRecords (dns.Answer r) ->
                   exists host, dns.Target srv = host +:+ ".") ->
      exists instances m',
        DiscoverAllServiceInstances name m = Ret (instances, None) m').
Proof.
  intros Hx Hr. rewrite (DiscoverAll_success _ _ _ _ Hx Hr).
  generalize (exchanged (srvQuestion name m) w m) as m0.
  generalize (srvRecords (dns.Answer r)) as srvs. clear.
  intros srvs m0. split; [|split].
  - intros (srv & Hin & Hempty). revert m0.
    induction srvs as [|srv0 srvs IH]; intros m0; [by apply elem_of_nil in Hin |].
    simpl. destruct (targetOf srv0) as [target|] eqn:Ht.
    + apply elem_of_cons in Hin as [<-|Hin].
      { unfold targetOf in Ht. by rewrite Hempty in Ht. }
      run. destruct (resolveTarget_cases target m0) as (r0 & m1 & -> & _).
      destruct (IH Hin m1) as (msg & m' & Hp).
      destruct (resolutions srvs m1); [done |]. eauto.
    + eauto.
  - apply slice_to_dot.
  - intros Hdots.
    assert (exists rs m', resolutions srvs m0 = Ret rs m') as (rs & m' & ->); [|eauto].
    revert m0. induction srvs as [|srv0 srvs IH]; intros m0; simpl; [eauto |].
    destruct (Hdots srv0) as (host & Hhost); [by left |].
    unfold targetOf. rewrite Hhost, slice_to_dot. run.
    destruct (resolveTarget_cases host m0) as (r0 & m1 & -> & _).
    destruct (IH (fun srv Hin => Hdots srv (list_elem_of_further _ _ _ Hin)) m1)
      as (rs & m' & ->).
    eauto.
Qed.

(** C10.  Whenever [DiscoverAllServiceInstances] returns a non-nil error,
    and whenever [resolveTarget] returns a non-nil error, the cache is what
    it was before the call. *)
Theorem cache_untouched_on_error :
  (forall name m instances e m',
     DiscoverAllServiceInstances name m = Ret (instances, Some e) m' ->
     targetCache (self m') = targetCache (self m))
  /\ (forall target m ip e m',
       resolveTarget target m = Ret (ip, Some e) m' ->
       targetCache (self m') = targetCache (self m)).
Proof.
  split.
  - intros name m instances e m' Hret.
    destruct (Exchange (srvQuestion name m) (dnsServer (self m)) (net (env m)))
      as [x w] eqn:Hx.
    rewrite (DiscoverAll_eq _ _ _ _ Hx) in Hret.
    destruct x as [r|err]; [|by injection Hret as _ _ <-].
    destruct (dns.Rcode r =? dns.RcodeSuccess)%Z; [|by injection Hret as _ _ <-].
    by destruct (DiscoverAll_range _ _ _).
  - intros target m ip e m' Hret.
    destruct (resolveTarget_cases target m) as (r & m1 & Heq & Hcase).
    rewrite Heq in Hret. injection Hret as -> ->.
    by inversion Hcase.
Qed.

(** ** Further properties of resolveTarget *)

Lemma lookups_app j1 j2 : lookups (j1 ++ j2) = lookups j1 ++ lookups j2.
Proof.
  induction j1 as [|[q server|h|msg] j1 IH]; simpl; try done. by rewrite IH.
Qed.

Lemma queries_exchanges t j : queries t (exchanges j) = queries t j.
Proof.
  induction j as [|[q server|h|msg] j IH]; simpl; try done. by rewrite IH.
Qed.

Lemma length_app_last (h : string) (c : ascii) :
  String.length (h +:+ String c "") = S (String.length h).
Proof. induction h as [|c' h IH]; simpl; [done | by rewrite IH]. Qed.

Lemma substring_app_last (h : string) (c : ascii) :
  substring 0 (String.length h) (h +:+ String c "") = h.
Proof. induction h as [|c' h IH]; simpl; [done | by rewrite IH]. Qed.

Lemma resolveTarget_case_cached target m r m' :
  resolveTarget_case target m r m' ->
  r.2 = None ->
  targetCache (self m') !! target = Some r.1.
Proof.
  destruct 1 as [ip H|a w H|e w msg H]; simpl; try done.
  intros _. apply lookup_insert_eq.
Qed.

Lemma resolveTarget_case_frame target m r m' other :
  resolveTarget_case target m r m' ->
  other <> target ->
  targetCache (self m') !! other = targetCache (self m) !! other.
Proof.
  destruct 1 as [ip H|a w H|e w msg H]; simpl; try done.
  intros Hne. by apply lookup_insert_ne.
Qed.

(** X1.  A call of [resolveTarget] never sends more than one query: with
    the target in the cache it returns the cached address and leaves the
    machine untouched; otherwise it sends exactly one exchange, the A
    question for the target to the resolver's server, whatever comes
    back. *)
Theorem resolveTarget_one_exchange target m :
  exists r m',
    resolveTarget target m = Ret r m'
    /\ match targetCache (self m) !! target with
       | Some ip => r = (ip, None) /\ m' = m
       | None =>
           exchanges (journal (env m'))
           = exchanges (journal (env m))
               ++ [EvExchange (aQuestion target) (dnsServer (self m))]
           /\ net (env m')
              = (Exchange (aQuestion target) (dnsServer (self m)) (net (env m))).2
       end.
Proof.
  destruct (targetCache (self m) !! target) as [ip|] eqn:Hc.
  - exists (ip, None), m. by rewrite (resolveTarget_hit _ _ _ Hc).
  - destruct (Exchange (aQuestion target) (dnsServer (self m)) (net (env m)))
      as [x w] eqn:Hx.
    rewrite (resolveTarget_miss _ _ _ _ Hc Hx).
    destruct x as [r|err]; [destruct (dns.Rcode r =? dns.RcodeSuccess)%Z;
                            [destruct (firstA (dns.Answer r))|]|];
      eexists _, _; (split; [reflexivity |]); simpl;
      rewrite ?exchanges_app; simpl; by rewrite ?app_nil_r.
Qed.

(** X2.  [resolveTarget] always returns, and after the call the target is
    in the cache exactly when the call succeeded: a nil error comes with
    the returned address cached under the target; an error comes with a
    nil address, no entry for the target, and the resolver as it was. *)
Theorem resolveTarget_cached_iff_success target m :
  exists r m',
    resolveTarget target m = Ret r m'
    /\ ((r.2 = None /\ targetCache (self m') !! target = Some r.1)
        \/ (exists e, r.2 = Some e
                      /\ r.1 = []
                      /\ targetCache (self m') !! target = None
                      /\ self m' = self m)).
Proof.
  destruct (resolveTarget_cases target m) as (r & m' & Heq & Hcase).
  exists r, m'. split; [done |].
  inversion Hcase; subst; simpl.
  - by left.
  - left. split; [done | apply lookup_insert_eq].
  - right. eauto.
Qed.

(** X3.  On a cache miss, an exchange that fails makes [resolveTarget]
    return the error of the exchange, and a response whose code is not
    success makes it return the error "Target DNS query did not succeed",
    whatever records the response carries; in both cases the target stays
    out of the cache. *)
Theorem resolveTarget_query_failure target m :
  targetCache (self m) !! target = None ->
  (forall e w,
     Exchange (aQuestion target) (dnsServer (self m)) (net (env m)) = (inr e, w) ->
     exists m',
       resolveTarget target m = Ret ([], Some e) m'
       /\ targetCache (self m') !! target = None)
  /\ (forall r w,
        Exchange (aQuestion target) (dnsServer (self m)) (net (env m)) = (inl r, w) ->
        dns.Rcode r <> dns.RcodeSuccess ->
        exists m',
          resolveTarget target m = Ret ([], Some TargetQueryFailedError) m'
          /\ targetCache (self m') !! target = None).
Proof.
  intros Hmiss. split.
  - intros e w Hx. rewrite (resolveTarget_miss _ _ _ _ Hmiss Hx). eauto.
  - intros r w Hx Hr. rewrite (resolveTarget_miss _ _ _ _ Hmiss Hx).
    destruct (Z.eqb_spec (dns.Rcode r) dns.RcodeSuccess) as [?|_]; [done |]. eauto.
Qed.

(** X4.  [resolveTarget] touches the cache at the key of its target only:
    the entry of every other hostname, present or absent, is after the call
    what it was before. *)
Theorem resolveTarget_frame target m other :
  other <> target ->
  targetCache (self (state_of (resolveTarget target m))) !! other
  = targetCache (self m) !! other.
Proof.
  intros Hne.
  destruct (resolveTarget_cases target m) as (r & m' & -> & Hcase). simpl.
  by eapply resolveTarget_case_frame.
Qed.

(** X5.  The hostname taken from an SRV record is its target without the
    last byte, whatever that byte is: there is none for an empty target,
    and a target that does not end in a dot loses its last character. *)
Theorem targetOf_drops_last_byte srv :
  (dns.Target srv = "" -> targetOf srv = None)
  /\ (forall h c, dns.Target srv = h +:+ String c "" -> targetOf srv = Some h).
Proof.
  unfold targetOf. split.
  - by intros ->.
  - intros h c ->. rewrite slice_to_nonempty by (by destruct h).
    rewrite length_app_last. simpl. rewrite Nat.sub_0_r.
    by rewrite substring_app_last.
Qed.

(** ** Further properties of the resolution loop *)

Lemma DiscoverAll_range_state answer instances m :
  state_of (DiscoverAll_range answer instances m)
  = state_of (resolutions (srvRecords answer) m).
Proof.
  rewrite DiscoverAll_range_resolutions. by destruct (resolutions _ _).
Qed.

(** One step of [resolutions]: the record's target is sliced, resolved,
    and the rest goes on from the machine the resolution left. *)
Lemma resolutions_cons srv srvs m :
  resolutions (srv :: srvs) m =
  match targetOf srv with
  | None => Panic "slice bounds out of range" m
  | Some target =>
      match resolveTarget target m with
      | Ret r m1 =>
          match resolutions srvs m1 with
          | Ret rs m' => Ret (r :: rs) m'
          | Panic msg m' => Panic msg m'
          end
      | Panic msg m1 => Panic msg m1
      end
  end.
Proof.
  simpl. destruct (targetOf srv); [|done]. run.
  destruct (resolveTarget _ m); [|done]. by destruct (resolutions _ _).
Qed.

Lemma resolutions_grows srvs m : grows m (state_of (resolutions srvs m)).
Proof.
  revert m. induction srvs as [|srv srvs IH]; intros m; [apply grows_refl |].
  rewrite resolutions_cons. destruct (targetOf srv) as [target|]; [|apply grows_refl].
  destruct (resolveTarget_cases target m) as (r & m1 & -> & Hcase).
  apply resolveTarget_case_grows in Hcase. specialize (IH m1).
  destruct (resolutions srvs m1); simpl in *; by eapply grows_trans.
Qed.

Lemma resolveTarget_case_exchanges target m r m' :
  resolveTarget_case target m r m' ->
  exists ts,
    exchanges (journal (env m'))
    = exchanges (journal (env m)) ++ aQueries (dnsServer (self m)) ts
    /\ ts `sublist_of` [target].
Proof.
  destruct 1 as [ip H|a w H|e w msg H].
  - exists []. simpl. rewrite app_nil_r. split; [done | apply sublist_nil_l].
  - exists [target]. simpl. by rewrite exchanges_app.
  - exists [target]. simpl. rewrite !exchanges_app. simpl. by rewrite app_nil_r.
Qed.

Lemma resolutions_exchanges srvs m :
  exists ts,
    exchanges (journal (env (state_of (resolutions srvs m))))
    = exchanges (journal (env m)) ++ aQueries (dnsServer (self m)) ts
    /\ ts `sublist_of` omap targetOf srvs.
Proof.
  revert m. induction srvs as [|srv srvs IH]; intros m.
  - exists []. simpl. by rewrite app_nil_r.
  - rewrite resolutions_cons. simpl omap.
    destruct (targetOf srv) as [target|].
    + destruct (resolveTarget_cases target m) as (r & m1 & -> & Hcase).
      destruct (resolveTarget_case_exchanges _ _ _ _ Hcase) as (ts0 & Hj0 & Hs0).
      destruct (resolveTarget_case_grows _ _ _ _ Hcase) as (Hserver & _ & _).
      destruct (IH m1) as (ts & Hj & Hs).
      exists (ts0 ++ ts). split.
      * replace (state_of match resolutions srvs m1 with
                          | Ret rs m' => Ret (r :: rs) m'
                          | Panic msg m' => Panic msg m'
                          end)
          with (state_of (resolutions srvs m1)) by (by destruct (resolutions _ _)).
        rewrite Hj, Hj0, Hserver. unfold aQueries. by rewrite fmap_app, app_assoc.
      * by apply (sublist_app ts0 [target]).
    + exists []. simpl. rewrite app_nil_r. split; [done | apply sublist_nil_l].
Qed.

Lemma queries_aQueries server ts :
  queries dns.TypeA (aQueries server ts) = length ts
  /\ queries dns.TypeSRV (aQueries server ts) = 0%nat.
Proof. induction ts as [|t ts [IHa IHs]]; simpl; [done |]. by rewrite IHa, IHs. Qed.

Lemma length_omap_le {A B} (f : A -> option B) (l : list A) :
  (length (omap f l) <= length l)%nat.
Proof. induction l as [|a l IH]; csimpl; [done |]. destruct (f a); csimpl; lia. Qed.

(** The machine a call of [DiscoverAllServiceInstances] leaves, read off
    what its SRV exchange gave. *)
Lemma DiscoverAll_state name m x w :
  Exchange (srvQuestion name m) (dnsServer (self m)) (net (env m)) = (x, w) ->
  let m0 := exchanged (srvQuestion name m) w m in
  exists j,
    self (state_of (DiscoverAllServiceInstances name m))
    = self (state_of (resolutions (answered x) m0))
    /\ journal (env (state_of (DiscoverAllServiceInstances name m)))
       = journal (env (state_of (resolutions (answered x) m0))) ++ j
    /\ exchanges j = [].
Proof.
  intros Hx m0. rewrite (DiscoverAll_eq _ _ _ _ Hx). unfold answered.
  destruct x as [r|err]; [|by exists [EvLogError "Error during connection to DNS server"]].
  destruct (dns.Rcode r =? dns.RcodeSuccess)%Z;
    [|by exists [EvLogError "Service lookup: DNS query did not succeed"]].
  exists []. rewrite app_nil_r.
  pose proof (DiscoverAll_range_state (dns.Answer r) [] m0) as Hst. fold m0.
  destruct (DiscoverAll_range (dns.Answer r) [] m0); simpl in *; by rewrite Hst.
Qed.

(** X6.  What a call of [DiscoverAllServiceInstances] sends, whether it
    returns a list, an error, or panics: one SRV query, then A queries
    only, all to the resolver's server, for targets of the SRV records of
    the answer in their order, and so never more A queries than there are
    such records. *)
Theorem DiscoverAll_exchanges name m :
  let server := dnsServer (self m) in
  let x := (Exchange (srvQuestion name m) server (net (env m))).1 in
  let m' := state_of (DiscoverAllServiceInstances name m) in
  exists targets,
    exchanges (journal (env m'))
    = exchanges (journal (env m))
        ++ EvExchange (srvQuestion name m) server :: aQueries server targets
    /\ targets `sublist_of` omap targetOf (answered x)
    /\ queries dns.TypeSRV (journal (env m')) = S (queries dns.TypeSRV (journal (env m)))
    /\ (queries dns.TypeA (journal (env m'))
        <= queries dns.TypeA (journal (env m)) + length (answered x))%nat.
Proof.
  intros server x m'. subst server x m'.
  destruct (Exchange (srvQuestion name m) (dnsServer (self m)) (net (env m)))
    as [x w] eqn:Hx.
  destruct (DiscoverAll_state _ _ _ _ Hx) as (j & _ & Hj & Hnone).
  destruct (resolutions_exchanges (answered x) (exchanged (srvQuestion name m) w m))
    as (ts & Hts & Hsub).
  simpl in Hts. rewrite exchanges_app in Hts. simpl in Hts.
  assert (exchanges (journal (env (state_of (DiscoverAllServiceInstances name m))))
          = exchanges (journal (env m))
              ++ EvExchange (srvQuestion name m) (dnsServer (self m))
                 :: aQueries (dnsServer (self m)) ts) as Hall.
  { rewrite Hj, exchanges_app, Hnone, app_nil_r, Hts. by rewrite <- app_assoc. }
  exists ts. split; [done |]. split; [done |].
  rewrite <- (queries_exchanges dns.TypeSRV (journal (env (state_of _)))).
  rewrite <- (queries_exchanges dns.TypeA (journal (env (state_of _)))).
  rewrite Hall, !queries_app, !queries_exchanges. simpl.
  destruct (queries_aQueries (dnsServer (self m)) ts) as [-> ->].
  apply sublist_length in Hsub.
  pose proof (length_omap_le targetOf (answered x)).
  split; lia.
Qed.

Lemma resolutions_cache srvs m target ip :
  targetCache (self (state_of (resolutions srvs m))) !! target = Some ip ->
  targetCache (self m) !! target = Some ip \/ target ∈ omap targetOf srvs.
Proof.
  revert m. induction srvs as [|srv srvs IH]; intros m; [by left |].
  rewrite resolutions_cons. simpl omap.
  destruct (targetOf srv) as [t|]; [|by left].
  destruct (resolveTarget_cases t m) as (r & m1 & Heq & Hcase).
  pose proof (resolveTarget_case_frame _ _ _ _ target Hcase) as Hframe.
  rewrite Heq.
  intros Hin.
  assert (targetCache (self (state_of (resolutions srvs m1))) !! target = Some ip)
    as Hin' by (by destruct (resolutions srvs m1)).
  destruct (IH m1 Hin') as [H1|Hrest]; [|right; by apply list_elem_of_further].
  destruct (decide (target = t)) as [->|Hne]; [right; apply list_elem_of_here |].
  left. by rewrite <- Hframe.
Qed.

(** X7.  Whatever a call of [DiscoverAllServiceInstances] does, the only
    hostnames it can add to the cache are targets of SRV records of the
    answer to its SRV query; every other entry found after the call was
    there before. *)
Theorem DiscoverAll_caches_only_targets name m target ip :
  targetCache (self (state_of (DiscoverAllServiceInstances name m))) !! target = Some ip ->
  targetCache (self m) !! target = Some ip
  \/ target ∈ omap targetOf
       (answered (Exchange (srvQuestion name m) (dnsServer (self m)) (net (env m))).1).
Proof.
  destruct (Exchange (srvQuestion name m) (dnsServer (self m)) (net (env m)))
    as [x w] eqn:Hx.
  destruct (DiscoverAll_state _ _ _ _ Hx) as (j & -> & _ & _).
  intros Hin. by apply resolutions_cache in Hin.
Qed.

Lemma cachedAs_grows m m' srv r : grows m m' -> cachedAs m srv r -> cachedAs m' srv r.
Proof.
  intros (_ & _ & Hsub) (target & Ht & Hin & Hok).
  exists target. repeat split; try done. by eapply lookup_weaken.
Qed.

(** After [resolutions], the target of every record whose resolution
    succeeded is in the cache with the address of that resolution. *)
Lemma resolutions_cachedAs srvs m rs m' :
  resolutions srvs m = Ret rs m' ->
  Forall2 (fun srv r => r.2 = None -> cachedAs m' srv r) srvs rs.
Proof.
  revert m rs m'. induction srvs as [|srv srvs IH]; intros m rs m'.
  - simpl. intros [= <- _]. constructor.
  - rewrite resolutions_cons. destruct (targetOf srv) as [target|] eqn:Ht; [|done].
    destruct (resolveTarget_cases target m) as (r & m1 & -> & Hcase).
    pose proof (resolutions_grows srvs m1) as Hg.
    destruct (resolutions srvs m1) as [rs' m2|] eqn:Hrs; [|done].
    intros [= <- <-]. constructor; [|by eapply IH].
    intros Hok. apply (cachedAs_grows m1); [done |].
    exists target. split; [done |]. split; [by eapply resolveTarget_case_cached | done].
Qed.

Lemma built_backed m' srvs rs :
  Forall2 (fun srv r => r.2 = None -> cachedAs m' srv r) srvs rs ->
  Forall (backed m' srvs) (built srvs rs).
Proof.
  induction 1 as [|srv [ip [e|]] srvs rs Hhd _ IH]; simpl; [constructor | |].
  - eapply Forall_impl; [exact IH |].
    intros i (srv' & t & ip' & Hin & H). exists srv', t, ip'.
    split; [by apply list_elem_of_further | done].
  - constructor.
    + destruct (Hhd eq_refl) as (t & Ht & Hin & _).
      exists srv, t, ip. split; [apply list_elem_of_here | done].
    + eapply Forall_impl; [exact IH |].
      intros i (srv' & t & ip' & Hin & H). exists srv', t, ip'.
      split; [by apply list_elem_of_further | done].
Qed.

Lemma built_sublist srvs rs :
  Port <$> built srvs rs `sublist_of` (fun srv => Sprintf_d (dns.Port srv)) <$> srvs.
Proof.
  revert rs. induction srvs as [|srv srvs IH]; intros [|[ip [e|]] rs]; simpl;
    try apply sublist_nil_l.
  - apply sublist_cons, IH.
  - apply sublist_skip, IH.
Qed.

(** X8.  Whatever number of targets fail, the list a successful call of
    [DiscoverAllServiceInstances] returns holds no more instances than the
    answer has SRV records, its ports are ports of those records in the
    order of the answer, and every instance stands on a record whose target
    is, when the call returns, in the cache with the address the instance
    shows. *)
Theorem DiscoverAll_instances_backed name m r w instances m' :
  Exchange (srvQuestion name m) (dnsServer (self m)) (net (env m)) = (inl r, w) ->
  DiscoverAllServiceInstances name m = Ret (instances, None) m' ->
  Forall (backed m' (srvRecords (dns.Answer r))) instances
  /\ Port <$> instances
     `sublist_of` (fun srv => Sprintf_d (dns.Port srv)) <$> srvRecords (dns.Answer r)
  /\ (length instances <= length (srvRecords (dns.Answer r)))%nat.
Proof.
  intros Hx. rewrite (DiscoverAll_eq _ _ _ _ Hx).
  destruct (dns.Rcode r =? dns.RcodeSuccess)%Z; [|done].
  rewrite DiscoverAll_range_resolutions.
  destruct (resolutions _ _) as [rs m1|] eqn:Hrs; [|done].
  intros [= <- <-]. simpl.
  pose proof (built_sublist (srvRecords (dns.Answer r)) rs) as Hsub.
  split; [by eapply built_backed, resolutions_cachedAs |].
  split; [done |].
  apply sublist_length in Hsub. by rewrite !length_fmap in Hsub.
Qed.

Lemma resolutions_cached srvs rs m :
  Forall2 (cachedAs m) srvs rs -> resolutions srvs m = Ret rs m.
Proof.
  induction 1 as [|srv [ip err] srvs rs (target & Ht & Hin & Hok) _ IH]; [done |].
  rewrite resolutions_cons, Ht. simpl in *. subst err.
  by rewrite (resolveTarget_hit _ _ _ Hin), IH.
Qed.

Lemma failures_none_resolved (P : dns.SRV -> IP * option error -> Prop) srvs rs :
  Forall2 (fun srv r => r.2 = None -> P srv r) srvs rs ->
  failures rs = 0%nat ->
  Forall2 P srvs rs.
Proof.
  induction 1 as [|srv [ip [e|]] srvs rs Hhd _ IH]; simpl; [constructor | done |].
  intros Hf. constructor; [by apply Hhd | by apply IH].
Qed.

(** X9.  Once a call of [DiscoverAllServiceInstances] has resolved every
    target of an answer, a later call that gets the same answer, after any
    other calls and changes of the network, resolves all of them from the
    cache: it returns the same instances, sends the SRV query and nothing
    else, and leaves the resolver as it was. *)
Theorem DiscoverAll_repeat name m r w rs m1 m2 w2 :
  Exchange (srvQuestion name m) (dnsServer (self m)) (net (env m)) = (inl r, w) ->
  dns.Rcode r = dns.RcodeSuccess ->
  resolutions (srvRecords (dns.Answer r)) (exchanged (srvQuestion name m) w m)
    = Ret rs m1 ->
  failures rs = 0%nat ->
  later m1 m2 ->
  Exchange (srvQuestion name m2) (dnsServer (self m2)) (net (env m2)) = (inl r, w2) ->
  DiscoverAllServiceInstances name m
    = Ret (built (srvRecords (dns.Answer r)) rs, None) m1
  /\ DiscoverAllServiceInstances name m2
     = Ret (built (srvRecords (dns.Answer r)) rs, None)
           (exchanged (srvQuestion name m2) w2 m2).
Proof.
  intros Hx Hr Hrs Hf Hlater Hx2.
  split; [by rewrite (DiscoverAll_success _ _ _ _ Hx Hr), Hrs |].
  rewrite (DiscoverAll_success _ _ _ _ Hx2 Hr).
  rewrite (resolutions_cached _ rs); [done |].
  apply resolutions_cachedAs in Hrs.
  apply failures_none_resolved in Hrs; [|done].
  eapply Forall2_impl; [exact Hrs |].
  intros srv res Hc. apply (cachedAs_grows m1); [|done].
  eapply grows_trans; [by apply later_grows |]. by apply grows_self.
Qed.

(** ** Further properties of DiscoverService *)

Lemma DiscoverService_eq name m :
  DiscoverService name m =
  match DiscoverAllServiceInstances name m with
  | Ret (_, Some err) m' => Ret ("", "", Some err) m'
  | Ret ([], None) m' =>
      Ret ("", "", Some NoInstanceError)
          (logged "Service lookup: No SRV entry in DNS response" m')
  | Ret (i0 :: _, None) m' => Ret (Ip i0, Port i0, None) m'
  | Panic msg m' => Panic msg m'
  end.
Proof.
  unfold DiscoverService. run.
  by destruct (DiscoverAllServiceInstances name m) as [[[|i0 l] [e|]] m'|msg m'].
Qed.

Lemma failures_le_length rs : (failures rs <= length rs)%nat.
Proof. induction rs as [|r rs IH]; simpl; [done |]. destruct (resolved r); lia. Qed.

Lemma built_first srvs rs k srv ip :
  failures (take k rs) = k ->
  rs !! k = Some (ip, None) ->
  srvs !! k = Some srv ->
  exists rest, built srvs rs = instanceOf srv ip :: rest.
Proof.
  revert srvs rs. induction k as [|k IH]; intros [|srv0 srvs] [|[ip0 err0] rs];
    simpl; try done.
  - intros _ [= -> ->] [= ->]. eauto.
  - pose proof (failures_le_length (take k rs)) as Hle.
    rewrite length_take in Hle.
    unfold resolved. simpl. destruct err0 as [e|]; [|lia].
    intros [= Hf] Hk Hs. by apply IH.
Qed.

Lemma built_all_failed srvs rs : failures rs = length rs -> built srvs rs = [].
Proof.
  revert srvs. induction rs as [|[ip [e|]] rs IH]; intros [|srv srvs]; simpl;
    try done; unfold resolved; simpl.
  - intros [= Hf]. by apply IH.
  - pose proof (failures_le_length rs). lia.
Qed.

(** X10.  [DiscoverService] returns the endpoint of the first SRV record
    whose target resolves: when the resolutions of the k records before it
    all fail and the k-th succeeds, the result is the formatted address of
    that resolution and the port of that record, with a nil error; and the
    call has gone through all the records, not only up to the k-th. *)
Theorem DiscoverService_first_resolvable name m r w rs m' k srv ip :
  Exchange (srvQuestion name m) (dnsServer (self m)) (net (env m)) = (inl r, w) ->
  dns.Rcode r = dns.RcodeSuccess ->
  resolutions (srvRecords (dns.Answer r)) (exchanged (srvQuestion name m) w m)
    = Ret rs m' ->
  failures (take k rs) = k ->
  rs !! k = Some (ip, None) ->
  srvRecords (dns.Answer r) !! k = Some srv ->
  DiscoverService name m = Ret (IP_String ip, Sprintf_d (dns.Port srv), None) m'.
Proof.
  intros Hx Hr Hrs Hf Hk Hs.
  rewrite DiscoverService_eq, (DiscoverAll_success _ _ _ _ Hx Hr), Hrs.
  by destruct (built_first _ _ _ _ _ Hf Hk Hs) as (rest & ->).
Qed.

(** X11.  When the answer has SRV records but the resolution of every one
    of their targets fails, [DiscoverService] returns the same error as for
    an answer without SRV records, "No SRV entry in DNS response", with
    empty ip and port; none of the errors of the resolutions is
    returned. *)
Theorem DiscoverService_no_target_resolves name m r w rs m' :
  Exchange (srvQuestion name m) (dnsServer (self m)) (net (env m)) = (inl r, w) ->
  dns.Rcode r = dns.RcodeSuccess ->
  resolutions (srvRecords (dns.Answer r)) (exchanged (srvQuestion name m) w m)
    = Ret rs m' ->
  failures rs = length rs ->
  DiscoverAllServiceInstances name m = Ret ([], None) m'
  /\ DiscoverService name m
     = Ret ("", "", Some NoInstanceError)
           (logged "Service lookup: No SRV entry in DNS response" m').
Proof.
  intros Hx Hr Hrs Hf.
  rewrite DiscoverService_eq, (DiscoverAll_success _ _ _ _ Hx Hr), Hrs.
  by rewrite (built_all_failed _ _ Hf).
Qed.

Lemma Sprintf_d_nonempty (n : Z) : Sprintf_d n <> "".
Proof.
  intros Hempty. pose proof (Sprintf_d_reads_back n) as Hback.
  by rewrite Hempty in Hback.
Qed.

Lemma built_instances srvs rs :
  Forall (fun i => exists srv ip, i = instanceOf srv ip) (built srvs rs).
Proof.
  revert rs. induction srvs as [|srv srvs IH]; intros [|[ip [e|]] rs]; simpl;
    try constructor; eauto.
Qed.

(** X12.  What [DiscoverService] returns is an endpoint or an error, never
    a mix: with a nil error the ip and port are those of the first
    instance [DiscoverAllServiceInstances] returns and the port is not
    empty; with an error both ip and port are empty. *)
Theorem DiscoverService_endpoint_or_error name m (ip port : string) err m' :
  DiscoverService name m = Ret (ip, port, err) m' ->
  (err = None
   /\ port <> ""
   /\ exists rest,
        DiscoverAllServiceInstances name m
        = Ret ({| Ip := ip; Port := port |} :: rest, None) m')
  \/ (exists e, err = Some e /\ ip = "" /\ port = "").
Proof.
  rewrite DiscoverService_eq.
  destruct (Exchange (srvQuestion name m) (dnsServer (self m)) (net (env m)))
    as [x w] eqn:Hx.
  rewrite (DiscoverAll_eq _ _ _ _ Hx).
  destruct x as [r|e]; [|intros [= <- <- <- <-]; right; eauto].
  destruct (dns.Rcode r =? dns.RcodeSuccess)%Z;
    [|intros [= <- <- <- <-]; right; eauto].
  rewrite DiscoverAll_range_resolutions.
  destruct (resolutions _ _) as [rs m1|]; [|done]. simpl.
  pose proof (built_instances (srvRecords (dns.Answer r)) rs) as Hall.
  destruct (built _ rs) as [|[ip0 port0] rest]; [intros [= <- <- <- <-]; right; eauto |].
  intros [= <- <- <- <-]. left.
  apply Forall_cons in Hall as [(srv & a & [= _ ->]) _].
  split; [done |]. split; [apply Sprintf_d_nonempty | eauto].
Qed.

(** ** The resolver over its lifetime *)

(** X13.  No operation changes the server address or the search suffix of
    a resolver: after any sequence of calls they are what they were, and so
    the SRV question asked for a service name stays the same. *)
Theorem server_and_suffix_pinned m m' name :
  later m m' ->
  dnsServer (self m') = dnsServer (self m)
  /\ dnsSearch (self m') = dnsSearch (self m)
  /\ srvQuestion name m' = srvQuestion name m.
Proof.
  intros Hlater. destruct (later_grows _ _ Hlater) as (Hserver & Hsearch & _).
  unfold srvQuestion. by rewrite Hsearch.
Qed.

(** X14.  [NewConsulServiceDiscovery] returns a resolver or an error, never
    both and never neither.  A resolver it returns has the suffix
    ".service.consul" and an empty cache.  The constructor sends no DNS
    exchange and looks up at most one host. *)
Theorem NewConsulServiceDiscovery_resolver_or_error dnsServer0 (e : @Env World) :
  let out := NewConsulServiceDiscovery dnsServer0 e in
  ((exists s, out.1 = (Some s, None)
              /\ dnsSearch s = ".service.consul"
              /\ targetCache s = ∅)
   \/ (exists err, out.1 = (None, Some err)))
  /\ exchanges (journal out.2) = exchanges (journal e)
  /\ (length (lookups (journal out.2)) <= S (length (lookups (journal e))))%nat.
Proof.
  unfold NewConsulServiceDiscovery, lookupHost.
  destruct (SplitHostPort dnsServer0) as [[host port]|err]; simpl.
  - destruct (ParseIP host); simpl; [split; [left; eauto | split; [done | lia]] |].
    destruct (LookupHost host (net e)) as [[addrs [err|]] w1]; simpl;
      [|destruct addrs as [|addr0 addrs]; simpl];
      rewrite ?exchanges_app, ?lookups_app, ?length_app; simpl;
      rewrite ?app_nil_r, ?length_app; simpl;
      (split; [eauto | split; [done | lia]]).
  - split; [right; eauto | split; [done | lia]].
Qed.

(** X15.  The resolution loop looks at the SRV records of an answer only:
    two answers with the same SRV records in the same order, whatever other
    records lie between them, give the same result, be it a list or a
    panic, and leave the same machine. *)
Theorem DiscoverAll_range_ignores_other_records answer1 answer2 instances m :
  srvRecords answer1 = srvRecords answer2 ->
  DiscoverAll_range answer1 instances m = DiscoverAll_range answer2 instances m.
Proof. intros Heq. by rewrite !DiscoverAll_range_resolutions, Heq. Qed.

Lemma resolutions_app pre post m :
  resolutions (pre ++ post) m =
  match resolutions pre m with
  | Ret rs m1 =>
      match resolutions post m1 with
      | Ret rs' m' => Ret (rs ++ rs') m'
      | Panic msg m' => Panic msg m'
      end
  | Panic msg m1 => Panic msg m1
  end.
Proof.
  revert m. induction pre as [|srv pre IH]; intros m.
  - simpl. run. by destruct (resolutions post m).
  - rewrite <- app_comm_cons, !resolutions_cons.
    destruct (targetOf srv); [|done]. destruct (resolveTarget _ m) as [r m1|]; [|done].
    rewrite IH. destruct (resolutions pre m1) as [rs m2|]; [|done].
    by destruct (resolutions post m2).
Qed.

(** X16.  The panic on an empty target comes when the loop reaches that
    record: the targets of the SRV records in front of it have been
    resolved, and stay in the cache, the records behind it are never looked
    at, and the machine is the one the resolutions in front left. *)
Theorem DiscoverAll_panics_midway name m r w pre srv0 post rs m1 :
  Exchange (srvQuestion name m) (dnsServer (self m)) (net (env m)) = (inl r, w) ->
  dns.Rcode r = dns.RcodeSuccess ->
  srvRecords (dns.Answer r) = pre ++ srv0 :: post ->
  dns.Target srv0 = "" ->
  resolutions pre (exchanged (srvQuestion name m) w m) = Ret rs m1 ->
  DiscoverAllServiceInstances name m = Panic "slice bounds out of range" m1
  /\ Forall2 (fun srv res => res.2 = None -> cachedAs m1 srv res) pre rs.
Proof.
  intros Hx Hr Hsrvs Hempty Hpre.
  split; [|by eapply resolutions_cachedAs].
  rewrite (DiscoverAll_success _ _ _ _ Hx Hr), Hsrvs, resolutions_app, Hpre.
  rewrite resolutions_cons. unfold targetOf. by rewrite Hempty.
Qed.

End Properties.

(** ** The properties at work on the scripted network *)

Import Fixture.

(** The example of the specification. *)
Example DiscoverAll_api :
  let o := DiscoverAllServiceInstances "api" fresh in
  returned o = Some ([ {| Ip := "10.0.0.1"; Port := "8080" |};
                       {| Ip := "10.0.0.2"; Port := "8081" |} ], None)
  /\ journal (env (state_of o))
     = [ EvExchange (askSRV "api.service.consul.") "10.0.0.53:8600";
         EvExchange (askA "host1.node.dc1.consul.") "10.0.0.53:8600";
         EvExchange (askA "host2.node.dc1.consul.") "10.0.0.53:8600" ]
  /\ targetCache (self (state_of o))
     = <[host2 := ipv4 10 0 0 2]> (<[host1 := ipv4 10 0 0 1]> ∅).
Proof. repeat split; vm_compute; reflexivity. Qed.

Example DiscoverService_api :
  returned (DiscoverService "api" fresh) = Some ("10.0.0.1", "8080", None).
Proof. reflexivity. Qed.

Lemma DiscoverAll_all_resolved_witness :
  exists instances,
    DiscoverAllServiceInstances "api" fresh
    = Ret (instances, None)
          (stored host2 (ipv4 10 0 0 2)
             (exchanged (aQuestion host2) exampleNet
                (stored host1 (ipv4 10 0 0 1)
                   (exchanged (aQuestion host1) exampleNet
                      (exchanged (srvQuestion "api" fresh) exampleNet fresh)))))
    /\ length instances = 2%nat
    /\ forall i srv,
         srvRecords (dns.Answer (msg (askSRV "api.service.consul."))) !! i = Some srv ->
         exists ip,
           [(ipv4 10 0 0 1, None); (ipv4 10 0 0 2, @None error)] !! i = Some (ip, None)
           /\ instances !! i
              = Some {| Ip := IP_String ip; Port := Sprintf_d (dns.Port srv) |}.
Proof.
  apply (DiscoverAll_all_resolved "api" fresh (msg (askSRV "api.service.consul."))
           exampleNet); reflexivity.
Defined.

Lemma DiscoverAll_error_without_instances_witness :
  [] = @nil ServiceInstance
  /\ ((exists w, Exchange (srvQuestion "refused" fresh) (dnsServer (self fresh))
                          (net (env fresh))
                 = (inr QueryFailedError, w))
      \/ (exists r w, Exchange (srvQuestion "refused" fresh) (dnsServer (self fresh))
                               (net (env fresh))
                      = (inl r, w)
                      /\ dns.Rcode r <> dns.RcodeSuccess
                      /\ QueryFailedError = QueryFailedError))
  /\ exchanges (journal (env (logged "Service lookup: DNS query did not succeed"
                                (exchanged (srvQuestion "refused" fresh) exampleNet fresh))))
     = exchanges (journal (env fresh))
         ++ [EvExchange (srvQuestion "refused" fresh) (dnsServer (self fresh))]
  /\ self (logged "Service lookup: DNS query did not succeed"
             (exchanged (srvQuestion "refused" fresh) exampleNet fresh))
     = self fresh.
Proof.
  apply (DiscoverAll_error_without_instances "refused" fresh). reflexivity.
Defined.

Lemma DiscoverAll_one_failure_witness :
  exists instances,
    DiscoverAllServiceInstances "half" fresh
    = Ret (instances, None)
          (stored host2 (ipv4 10 0 0 2)
             (exchanged (aQuestion host2) exampleNet
                (logged "Service lookup: No A entry in DNS response"
                   (exchanged (aQuestion gone) exampleNet
                      (stored host1 (ipv4 10 0 0 1)
                         (exchanged (aQuestion host1) exampleNet
                            (exchanged (srvQuestion "half" fresh) exampleNet fresh)))))))
    /\ length instances
       = (length (srvRecords (dns.Answer (msg (askSRV "half.service.consul.")))) - 1)%nat
    /\ (1 <= length (srvRecords (dns.Answer (msg (askSRV "half.service.consul.")))))%nat
    /\ instances
       = built (srvRecords (dns.Answer (msg (askSRV "half.service.consul."))))
               [(ipv4 10 0 0 1, None); ([], Some NoRecordError); (ipv4 10 0 0 2, None)].
Proof.
  apply (DiscoverAll_one_failure "half" fresh (msg (askSRV "half.service.consul."))
           exampleNet); reflexivity.
Defined.

Lemma resolveTarget_memoizes_witness :
  let m1 := stored host1 (ipv4 10 0 0 1) (exchanged (aQuestion host1) exampleNet fresh) in
  resolveTarget host1 fresh = Ret (ipv4 10 0 0 1, None) m1
  /\ targetCache (self m1) !! host1 = Some (ipv4 10 0 0 1)
  /\ resolveTarget host1 (after (CallDiscoverAll "half") m1)
     = Ret (ipv4 10 0 0 1, None) (after (CallDiscoverAll "half") m1)
  /\ exchanges (journal (env (state_of (resolveTarget host1 m1))))
     = exchanges (journal (env fresh))
         ++ [EvExchange (aQuestion host1) (dnsServer (self fresh))]
  /\ queries dns.TypeA (journal (env (state_of (resolveTarget host1 m1))))
     = S (queries dns.TypeA (journal (env fresh)))
  /\ resolveTarget host1 (after (CallResolveTarget host2) (after (CallResolveTarget host1) m1))
     = Ret (ipv4 10 0 0 1, None)
           (after (CallResolveTarget host2) (after (CallResolveTarget host1) m1)).
Proof.
  intros m1.
  assert (targetCache (self fresh) !! host1 = None) as Hmiss by reflexivity.
  assert (Exchange (aQuestion host1) (dnsServer (self fresh)) (net (env fresh))
          = (inl (msg (askA "host1.node.dc1.consul.")), exampleNet)) as Hx
    by reflexivity.
  assert (dns.Rcode (msg (askA "host1.node.dc1.consul.")) = dns.RcodeSuccess) as Hr
    by reflexivity.
  assert (firstA (dns.Answer (msg (askA "host1.node.dc1.consul.")))
          = Some (ipv4 10 0 0 1)) as Ha
    by reflexivity.
  destruct (resolveTarget_memoizes host1 fresh _ _ _ Hmiss Hx Hr Ha)
    as (Hfirst & Hin & Hlater & Hexch & Hcount & Hany).
  split; [exact Hfirst |]. split; [exact Hin |].
  split; [apply Hlater; eapply later_call, later_now |].
  split; [exact Hexch |]. split; [exact Hcount |].
  apply (Hany m1 (ipv4 10 0 0 1) (after (CallResolveTarget host1) m1));
    [reflexivity | eapply later_call, later_now].
Defined.

Lemma no_SRV_record_witness :
  DiscoverAllServiceInstances "none" fresh
    = Ret ([], None) (exchanged (srvQuestion "none" fresh) exampleNet fresh)
  /\ DiscoverService "none" fresh
     = Ret ("", "", Some NoInstanceError)
           (logged "Service lookup: No SRV entry in DNS response"
                   (exchanged (srvQuestion "none" fresh) exampleNet fresh)).
Proof.
  apply (no_SRV_record "none" fresh (msg (askSRV "none.service.consul."))); reflexivity.
Defined.

Lemma SRV_query_failure_witness :
  (exists m',
     DiscoverAllServiceInstances "nosuch" fresh
     = Ret ([], Some (LibError "i/o timeout")) m'
     /\ exchanges (journal (env m'))
        = exchanges (journal (env fresh))
            ++ [EvExchange (srvQuestion "nosuch" fresh) (dnsServer (self fresh))]
     /\ queries dns.TypeA (journal (env m')) = queries dns.TypeA (journal (env fresh))
     /\ queries dns.TypeSRV (journal (env m'))
        = S (queries dns.TypeSRV (journal (env fresh))))
  /\ (exists m',
       DiscoverAllServiceInstances "refused" fresh = Ret ([], Some QueryFailedError) m'
       /\ exchanges (journal (env m'))
          = exchanges (journal (env fresh))
              ++ [EvExchange (srvQuestion "refused" fresh) (dnsServer (self fresh))]
       /\ queries dns.TypeA (journal (env m')) = queries dns.TypeA (journal (env fresh))
       /\ queries dns.TypeSRV (journal (env m'))
          = S (queries dns.TypeSRV (journal (env fresh)))).
Proof.
  split.
  - apply (proj1 (SRV_query_failure "nosuch" fresh) (LibError "i/o timeout") exampleNet).
    reflexivity.
  - apply (proj2 (SRV_query_failure "refused" fresh)
             (msg (askSRV "refused.service.consul.")) exampleNet);
      [reflexivity | vm_compute; discriminate].
Defined.

Lemma cache_first_resolution_wins_witness :
  let m1 := stored host1 (ipv4 10 0 0 1) (exchanged (aQuestion host1) exampleNet fresh) in
  targetCache (self (after (CallResolveTarget host1) (after (CallDiscoverAll "api") m1)))
    !! host1 = Some (ipv4 10 0 0 1)
  /\ (exists m1',
        resolveTarget host1 fresh = Ret (ipv4 10 0 0 1, None) m1'
        /\ targetCache (self m1') = <[host1 := ipv4 10 0 0 1]> (targetCache (self fresh)))
  /\ (exists m1',
        resolveTarget gone fresh = Ret ([], Some NoRecordError) m1'
        /\ targetCache (self m1') = targetCache (self fresh)
        /\ exists r2 m2,
             resolveTarget gone m1' = Ret r2 m2
             /\ exchanges (journal (env m2))
                = exchanges (journal (env m1'))
                    ++ [EvExchange (aQuestion gone) (dnsServer (self m1'))]).
Proof.
  intros m1.
  destruct (@cache_first_resolution_wins Net _ _) as (_ & Hkeep & Hstore & Hnone).
  split; [|split].
  - apply (Hkeep m1); [reflexivity |].
    eapply later_call, later_call, later_now.
  - apply (Hstore host1 fresh (msg (askA "host1.node.dc1.consul.")) exampleNet);
      reflexivity.
  - apply (Hnone gone fresh (msg (askA "gone.node.dc1.consul.")) exampleNet);
      reflexivity.
Defined.

Lemma NewConsulServiceDiscovery_spec_witness :
  NewConsulServiceDiscovery "nowhere.local" freshEnv
    = ((None, Some (LibError "missing port in address")), freshEnv)
  /\ NewConsulServiceDiscovery "nowhere.local:8600" freshEnv
     = ((None, Some (LibError "no such host")),
        {| net := exampleNet; journal := [EvLookupHost "nowhere.local"] |})
  /\ NewConsulServiceDiscovery "empty.local:8600" freshEnv
     = ((None, Some NoHostError),
        {| net := exampleNet;
           journal := [EvLookupHost "empty.local";
                       EvLogError "No service discovery host could be resolved"] |})
  /\ NewConsulServiceDiscovery "consul.local:8600" freshEnv
     = ((Some {| dnsServer := "10.0.0.53:8600";
                 dnsSearch := ".service.consul";
                 targetCache := ∅ |}, None),
        {| net := exampleNet; journal := [EvLookupHost "consul.local"] |})
  /\ (NewConsulServiceDiscovery "10.0.0.53:8600" freshEnv
      = ((Some {| dnsServer := "10.0.0.53:8600";
                  dnsSearch := ".service.consul";
                  targetCache := ∅ |}, None), freshEnv)
      /\ lookups (journal (snd (NewConsulServiceDiscovery "10.0.0.53:8600" freshEnv)))
         = lookups (journal freshEnv)).
Proof.
  split; [|split; [|split; [|split]]].
  - apply (proj1 (NewConsulServiceDiscovery_spec "nowhere.local" freshEnv)).
    reflexivity.
  - apply (proj1 (proj2 (NewConsulServiceDiscovery_spec "nowhere.local:8600" freshEnv))
             "nowhere.local" "8600" [] (Some (LibError "no such host")) exampleNet);
      reflexivity.
  - apply (proj1 (proj2 (NewConsulServiceDiscovery_spec "empty.local:8600" freshEnv))
             "empty.local" "8600" [] None exampleNet);
      reflexivity.
  - exact (proj1 (proj2 (NewConsulServiceDiscovery_spec "consul.local:8600" freshEnv))
             "consul.local" "8600" ["10.0.0.53"; "10.0.0.54"] None exampleNet
             eq_refl eq_refl eq_refl).
  - apply (proj2 (proj2 (NewConsulServiceDiscovery_spec "10.0.0.53:8600" freshEnv))
             "10.0.0.53" "8600" (ipv4 10 0 0 53));
      reflexivity.
Defined.

Lemma target_slice_witness :
  (exists msg m', DiscoverAllServiceInstances "broken" fresh = Panic msg m')
  /\ slice_to ("host1.node.dc1.consul" +:+ ".")
              (len ("host1.node.dc1.consul" +:+ ".") - 1)
     = Some "host1.node.dc1.consul"
  /\ (exists instances m',
        DiscoverAllServiceInstances "api" fresh = Ret (instances, None) m').
Proof.
  assert (Exchange (srvQuestion "broken" fresh) (dnsServer (self fresh)) (net (env fresh))
          = (inl (msg (askSRV "broken.service.consul.")), exampleNet)) as Hbroken
    by reflexivity.
  assert (Exchange (srvQuestion "api" fresh) (dnsServer (self fresh)) (net (env fresh))
          = (inl (msg (askSRV "api.service.consul.")), exampleNet)) as Hapi
    by reflexivity.
  split; [|split].
  - apply (proj1 (target_slice "broken" fresh _ _ Hbroken eq_refl)).
    exists {| dns.Priority := 1; dns.Weight := 1; dns.Port := 8081; dns.Target := "" |}.
    split; [|reflexivity]. vm_compute. apply list_elem_of_further, list_elem_of_here.
  - apply (proj1 (proj2 (target_slice "api" fresh _ _ Hapi eq_refl))).
  - apply (proj2 (proj2 (target_slice "api" fresh _ _ Hapi eq_refl))).
    intros srv Hin. vm_compute in Hin.
    apply elem_of_cons in Hin as [->|Hin]; [by exists "host1.node.dc1.consul" |].
    apply elem_of_cons in Hin as [->|Hin]; [by exists "host2.node.dc1.consul" |].
    by apply elem_of_nil in Hin.
Defined.

Lemma cache_untouched_on_error_witness :
  targetCache (self (logged "Service lookup: DNS query did not succeed"
                       (exchanged (srvQuestion "refused" fresh) exampleNet fresh)))
    = targetCache (self fresh)
  /\ targetCache (self (logged "Service lookup: No A entry in DNS response"
                          (exchanged (aQuestion gone) exampleNet fresh)))
     = targetCache (self fresh).
Proof.
  split.
  - apply (proj1 (@cache_untouched_on_error Net _ _) "refused" fresh []
             QueryFailedError). reflexivity.
  - apply (proj2 (@cache_untouched_on_error Net _ _) gone fresh [] NoRecordError).
    reflexivity.
Defined.

(** ** The further properties at work *)

Import Scenario.

Lemma resolveTarget_query_failure_witness :
  (exists m',
     resolveTarget "nohost" cold = Ret ([], Some (LibError "i/o timeout")) m'
     /\ targetCache (self m') !! "nohost" = None)
  /\ (exists m',
        resolveTarget bad cold = Ret ([], Some TargetQueryFailedError) m'
        /\ targetCache (self m') !! bad = None).
Proof.
  split.
  - assert (targetCache (self cold) !! "nohost" = None) as Hmiss by reflexivity.
    apply (proj1 (resolveTarget_query_failure "nohost" cold Hmiss)
             (LibError "i/o timeout") moreNet).
    reflexivity.
  - assert (targetCache (self cold) !! bad = None) as Hmiss by reflexivity.
    apply (proj2 (resolveTarget_query_failure bad cold Hmiss)
             {| dns.Rcode := 3; dns.Answer := [dns.RR_A (ipv4 10 0 0 8)] |} moreNet);
      [reflexivity | vm_compute; discriminate].
Defined.

Lemma resolveTarget_frame_witness :
  let m1 := after (CallResolveTarget host1) fresh in
  targetCache (self (state_of (resolveTarget host2 m1))) !! host1
  = targetCache (self m1) !! host1.
Proof.
  intros m1. apply (resolveTarget_frame host2 m1 host1). vm_compute. discriminate.
Defined.

Lemma targetOf_drops_last_byte_witness :
  targetOf {| dns.Priority := 1; dns.Weight := 1; dns.Port := 7000; dns.Target := "" |}
  = None
  /\ targetOf {| dns.Priority := 1; dns.Weight := 1; dns.Port := 7000;
                 dns.Target := "host1" |}
     = Some "host".
Proof.
  split.
  - apply (proj1 (targetOf_drops_last_byte _)). reflexivity.
  - apply (proj2 (targetOf_drops_last_byte _) "host" "1"%char). reflexivity.
Defined.

Lemma DiscoverAll_caches_only_targets_witness :
  targetCache (self fresh) !! host1 = Some (ipv4 10 0 0 1)
  \/ host1 ∈ omap targetOf
       (answered (Exchange (srvQuestion "api" fresh) (dnsServer (self fresh))
                           (net (env fresh))).1).
Proof.
  apply (DiscoverAll_caches_only_targets "api" fresh host1 (ipv4 10 0 0 1)).
  reflexivity.
Defined.

Lemma DiscoverAll_instances_backed_witness :
  let instances := [ {| Ip := "10.0.0.1"; Port := "9000" |};
                     {| Ip := "10.0.0.2"; Port := "9002" |} ] in
  let m' := state_of (DiscoverAllServiceInstances "half" fresh) in
  Forall (backed m' (srvRecords (dns.Answer (msg (askSRV "half.service.consul.")))))
         instances
  /\ Port <$> instances
     `sublist_of` (fun srv => Sprintf_d (dns.Port srv))
                    <$> srvRecords (dns.Answer (msg (askSRV "half.service.consul.")))
  /\ (length instances
      <= length (srvRecords (dns.Answer (msg (askSRV "half.service.consul.")))))%nat.
Proof.
  intros instances m'.
  apply (DiscoverAll_instances_backed "half" fresh
           (msg (askSRV "half.service.consul.")) exampleNet); reflexivity.
Defined.

Lemma DiscoverAll_repeat_witness :
  let m1 := stored host2 (ipv4 10 0 0 2)
              (exchanged (aQuestion host2) exampleNet
                 (stored host1 (ipv4 10 0 0 1)
                    (exchanged (aQuestion host1) exampleNet
                       (exchanged (srvQuestion "api" fresh) exampleNet fresh)))) in
  let m2 := after (CallDiscoverAll "half") m1 in
  let rs := [(ipv4 10 0 0 1, None); (ipv4 10 0 0 2, @None error)] in
  DiscoverAllServiceInstances "api" fresh
    = Ret (built (srvRecords (dns.Answer (msg (askSRV "api.service.consul.")))) rs, None)
          m1
  /\ DiscoverAllServiceInstances "api" m2
     = Ret (built (srvRecords (dns.Answer (msg (askSRV "api.service.consul.")))) rs, None)
           (exchanged (srvQuestion "api" m2) exampleNet m2).
Proof.
  intros m1 m2 rs.
  apply (DiscoverAll_repeat "api" fresh (msg (askSRV "api.service.consul."))
           exampleNet rs m1 m2 exampleNet);
    try reflexivity.
  eapply later_call, later_now.
Defined.

Lemma DiscoverService_first_resolvable_witness :
  let m' := stored host1 (ipv4 10 0 0 1)
              (exchanged (aQuestion host1) moreNet
                 (stored host2 (ipv4 10 0 0 2)
                    (exchanged (aQuestion host2) moreNet
                       (logged "Service lookup: No A entry in DNS response"
                          (exchanged (aQuestion gone) moreNet
                             (exchanged (srvQuestion "late" cold) moreNet cold)))))) in
  DiscoverService "late" cold = Ret ("10.0.0.2", "7004", None) m'.
Proof.
  intros m'.
  change (DiscoverService "late" cold
          = Ret (IP_String (ipv4 10 0 0 2),
                 Sprintf_d (dns.Port {| dns.Priority := 1; dns.Weight := 1;
                                        dns.Port := 7004;
                                        dns.Target := "host2.node.dc1.consul." |}),
                 None) m').
  apply (DiscoverService_first_resolvable "late" cold
           {| dns.Rcode := 0;
              dns.Answer := [srv "gone.node.dc1.consul." 7003; dns.RR_other;
                             srv "host2.node.dc1.consul." 7004;
                             srv "host1.node.dc1.consul." 7005] |}
           moreNet
           [([], Some NoRecordError); (ipv4 10 0 0 2, None); (ipv4 10 0 0 1, None)]
           m' 1%nat
           {| dns.Priority := 1; dns.Weight := 1; dns.Port := 7004;
              dns.Target := "host2.node.dc1.consul." |}
           (ipv4 10 0 0 2));
    reflexivity.
Defined.

Lemma DiscoverService_no_target_resolves_witness :
  let m' := logged "Service lookup: Target DNS query did not succeed"
              (exchanged (aQuestion bad) moreNet
                 (logged "Service lookup: No A entry in DNS response"
                    (exchanged (aQuestion gone) moreNet
                       (exchanged (srvQuestion "down" cold) moreNet cold)))) in
  DiscoverAllServiceInstances "down" cold = Ret ([], None) m'
  /\ DiscoverService "down" cold
     = Ret ("", "", Some NoInstanceError)
           (logged "Service lookup: No SRV entry in DNS response" m').
Proof.
  intros m'.
  apply (DiscoverService_no_target_resolves "down" cold
           {| dns.Rcode := 0;
              dns.Answer := [srv "gone.node.dc1.consul." 7001;
                             srv "bad.node.dc1.consul." 7002] |}
           moreNet
           [([], Some NoRecordError); ([], Some TargetQueryFailedError)] m');
    reflexivity.
Defined.

Lemma DiscoverService_endpoint_or_error_witness :
  let m' := state_of (DiscoverService "api" fresh) in
  (@None error = None
   /\ "8080" <> ""
   /\ exists rest,
        DiscoverAllServiceInstances "api" fresh
        = Ret ({| Ip := "10.0.0.1"; Port := "8080" |} :: rest, None) m')
  \/ (exists e, @None error = Some e /\ "10.0.0.1" = "" /\ "8080" = "").
Proof.
  intros m'.
  apply (DiscoverService_endpoint_or_error "api" fresh "10.0.0.1" "8080" None m').
  reflexivity.
Defined.

Lemma server_and_suffix_pinned_witness :
  let m' := after (CallDiscoverService "late") (after (CallDiscoverAll "api") cold) in
  dnsServer (self m') = dnsServer (self cold)
  /\ dnsSearch (self m') = dnsSearch (self cold)
  /\ srvQuestion "api" m' = srvQuestion "api" cold.
Proof.
  intros m'. apply (server_and_suffix_pinned cold m' "api").
  eapply later_call, later_call, later_now.
Defined.

Lemma DiscoverAll_range_ignores_other_records_witness :
  DiscoverAll_range
    [dns.RR_other; srv "host1.node.dc1.consul." 8080;
     dns.RR_A (ipv4 10 0 0 9); srv "host2.node.dc1.consul." 8081] [] cold
  = DiscoverAll_range
      [srv "host1.node.dc1.consul." 8080; srv "host2.node.dc1.consul." 8081] [] cold.
Proof.
  apply DiscoverAll_range_ignores_other_records. reflexivity.
Defined.

Lemma DiscoverAll_panics_midway_witness :
  let m1 := stored host1 (ipv4 10 0 0 1)
              (exchanged (aQuestion host1) exampleNet
                 (exchanged (srvQuestion "broken" fresh) exampleNet fresh)) in
  DiscoverAllServiceInstances "broken" fresh = Panic "slice bounds out of range" m1
  /\ Forall2 (fun srv res => res.2 = None -> cachedAs m1 srv res)
       [ {| dns.Priority := 1; dns.Weight := 1; dns.Port := 8080;
            dns.Target := "host1.node.dc1.consul." |} ]
       [ (ipv4 10 0 0 1, None) ].
Proof.
  intros m1.
  apply (DiscoverAll_panics_midway "broken" fresh
           (msg (askSRV "broken.service.consul.")) exampleNet
           [ {| dns.Priority := 1; dns.Weight := 1; dns.Port := 8080;
                dns.Target := "host1.node.dc1.consul." |} ]
           {| dns.Priority := 1; dns.Weight := 1; dns.Port := 8081; dns.Target := "" |}
           []);
    reflexivity.
Defined.
